(** * crt-backend: the authentication and authorization core

    A shallow embedding of

    - [app/core/jwt.py]                    (token codec),
    - [app/middleware/auth_middleware.py]  (authentication gate),
    - [app/utils/decorators.py] and [app/core/permissions.py]
                                           (authorization gate),
    - [app/services/auth_service.py] with
      [app/repositories/user_repository.py] (credential verifier),
    - [app/core/dependencies.py]           (the [get_current_user] dependency),
    - [app/middleware/error_handler.py]    (rendering of [HTTPException]),

    followed by the properties of the specification that concern them.

    Python values are modelled by the type [pyvalue] (what [json.loads] can
    return, plus [datetime]); strings are sequences of code points below 256
    (the range of an HTTP header decoded as Latin-1); a raised exception is
    the [Raise] branch of [outcome].  The clock ([datetime.utcnow()]) is an
    explicit argument, in microseconds since the epoch.  The library
    [python-jose] is not part of the repository: its [jwt] module is a
    record [JoseLib] of operations, with the documented behaviour it is
    relied upon for collected in [JoseContract]. *)

From Stdlib Require Import Ascii String ZArith List Bool Lia.
From Stdlib Require Import DecimalString DecimalZ.
Import ListNotations.
Local Open Scope string_scope.
Local Open Scope Z_scope.
Local Set Warnings "-register-all".

(* ===================================================================== *)
(** ** Python values, exceptions and outcomes *)
(* ===================================================================== *)

(** A Python [float]: a dyadic number [m * 2^e], an infinity or a NaN.  No
    arithmetic is performed on floats here; only truth value and [int()]. *)
Inductive pyfloat :=
| Finite (m e : Z)
| Inf (negative : bool)
| NaN.

Inductive pyvalue :=
| PNone
| PBool (b : bool)
| PInt (z : Z)
| PFloat (f : pyfloat)
| PStr (s : string)
| PList (l : list pyvalue)
| PDict (d : list (string * pyvalue))
| PDatetime (us : Z).

(** A [dict] with string keys, in insertion order. *)
Definition pydict := list (string * pyvalue).

Inductive exn :=
| HTTPException (status_code : Z) (detail : string)
| JWTError (msg : string)
| ExpiredSignatureError (msg : string)
| JWTClaimsError (msg : string)
| KeyError (key : string)
| IndexError
| ValueError
| TypeError
| OverflowError
| MultipleResultsFound
| OtherError (name : string).

(** [isinstance(e, JWTError)]: [ExpiredSignatureError] and [JWTClaimsError]
    are subclasses of [JWTError] in [jose.exceptions]. *)
Definition is_JWTError (e : exn) : bool :=
  match e with
  | JWTError _ | ExpiredSignatureError _ | JWTClaimsError _ => true
  | _ => false
  end.

Inductive outcome (A : Type) :=
| Return (a : A)
| Raise (e : exn).
Arguments Return {A} a.
Arguments Raise {A} e.

Definition bind {A B : Type} (m : outcome A) (k : A -> outcome B) : outcome B :=
  match m with
  | Return a => k a
  | Raise e => Raise e
  end.

Declare Scope py_scope.
Delimit Scope py_scope with py.
Notation "x <- m ;; k" := (bind m (fun x => k))
  (at level 61, m at next level, right associativity) : py_scope.
Notation "' pat <- m ;; k" := (bind m (fun x => match x with pat => k end))
  (at level 61, pat pattern, m at next level, right associativity) : py_scope.
Local Open Scope py_scope.

(** *** Truth values ([bool(v)], as used by [if not v]) *)

Definition float_truthy (f : pyfloat) : bool :=
  match f with
  | Finite m _ => negb (m =? 0)
  | _ => true
  end.

Definition truthy (v : pyvalue) : bool :=
  match v with
  | PNone => false
  | PBool b => b
  | PInt z => negb (z =? 0)
  | PFloat f => float_truthy f
  | PStr s => negb (String.eqb s "")
  | PList l => match l with [] => false | _ => true end
  | PDict d => match d with [] => false | _ => true end
  | PDatetime _ => true
  end.

(** The truth value of an optional object ([None] when absent). *)
Definition truthy_opt (o : option pyvalue) : bool :=
  match o with
  | Some v => truthy v
  | None => false
  end.

(** *** Dictionaries *)

Fixpoint dict_lookup (k : string) (d : pydict) : option pyvalue :=
  match d with
  | [] => None
  | (k', v) :: d' => if String.eqb k k' then Some v else dict_lookup k d'
  end.

(** [d.get(k)]: [None] when the key is absent. *)
Definition dict_get (k : string) (d : pydict) : pyvalue :=
  match dict_lookup k d with
  | Some v => v
  | None => PNone
  end.

(** [d.get(k, default)]. *)
Definition dict_get_default (k : string) (default : pyvalue) (d : pydict) : pyvalue :=
  match dict_lookup k d with
  | Some v => v
  | None => default
  end.

(** [d[k]]. *)
Definition dict_item (k : string) (d : pydict) : outcome pyvalue :=
  match dict_lookup k d with
  | Some v => Return v
  | None => Raise (KeyError k)
  end.

(** [d.update({k: v})]: an existing key keeps its position. *)
Fixpoint dict_update (k : string) (v : pyvalue) (d : pydict) : pydict :=
  match d with
  | [] => [(k, v)]
  | (k', v') :: d' =>
      if String.eqb k k' then (k', v) :: d' else (k', v') :: dict_update k v d'
  end.

(** *** Strings *)

(** [c.isspace()] for a code point below 256. *)
Definition isspace (c : ascii) : bool :=
  let n := nat_of_ascii c in
  ((9 <=? n) && (n <=? 13) || (28 <=? n) && (n <=? 32)
   || (n =? 133) || (n =? 160))%nat.

Fixpoint lstrip (s : string) : string :=
  match s with
  | String c r => if isspace c then lstrip r else s
  | EmptyString => EmptyString
  end.

(** Drops trailing white space: a character is kept when something that is
    kept follows it or when it is no white space. *)
Fixpoint rstrip (s : string) : string :=
  match s with
  | EmptyString => EmptyString
  | String c r =>
      match rstrip r with
      | EmptyString => if isspace c then EmptyString else String c EmptyString
      | r' => String c r'
      end
  end.

(** [s.strip()]. *)
Definition strip (s : string) : string := rstrip (lstrip s).

(** [s.startswith(p)]. *)
Definition startswith (p s : string) : bool := String.prefix p s.

(** [s.split(" ", 1)]: one or two pieces, cut at the first space. *)
Fixpoint split_space_once (s : string) : list string :=
  match s with
  | EmptyString => [EmptyString]
  | String c r =>
      if Ascii.eqb c " "%char then [EmptyString; r]
      else match split_space_once r with
           | p :: ps => String c p :: ps
           | [] => [String c EmptyString]
           end
  end.

(** [s.split(" ")]: cut at every space; empty pieces are kept. *)
Fixpoint split_space (s : string) : list string :=
  match s with
  | EmptyString => [EmptyString]
  | String c r =>
      if Ascii.eqb c " "%char then EmptyString :: split_space r
      else match split_space r with
           | p :: ps => String c p :: ps
           | [] => [String c EmptyString]
           end
  end.

(** [l[i]] on a list of strings. *)
Definition list_item (l : list string) (i : nat) : outcome string :=
  match nth_error l i with
  | Some s => Return s
  | None => Raise IndexError
  end.

(** [needle in haystack] on two strings: a substring test. *)
Fixpoint is_substring (needle haystack : string) : bool :=
  String.prefix needle haystack
  || match haystack with
     | EmptyString => false
     | String _ r => is_substring needle r
     end.

(** [s in container] for a string [s]: list membership by [==], a substring
    test on a string, key membership on a dict; anything else is not
    iterable. *)
Definition py_eq_str (s : string) (v : pyvalue) : bool :=
  match v with
  | PStr s' => String.eqb s s'
  | _ => false
  end.

Definition py_contains_str (s : string) (container : pyvalue) : outcome bool :=
  match container with
  | PList l => Return (existsb (py_eq_str s) l)
  | PStr h => Return (is_substring s h)
  | PDict d => Return (existsb (fun kv => String.eqb s (fst kv)) d)
  | _ => Raise TypeError
  end.

(** *** [int(v)] and [str(n)] *)

Definition is_digit (c : ascii) : bool :=
  let n := nat_of_ascii c in ((48 <=? n) && (n <=? 57))%nat.

Definition digit_value (c : ascii) : Z := Z.of_nat (nat_of_ascii c) - 48.

(** Decimal digits, with single underscores allowed between two digits. *)
Fixpoint int_digits (s : string) (acc : Z) (after_digit : bool) : option Z :=
  match s with
  | EmptyString => if after_digit then Some acc else None
  | String c r =>
      if is_digit c then int_digits r (10 * acc + digit_value c) true
      else if Ascii.eqb c "_"%char then
        if after_digit then
          match r with
          | String c' _ => if is_digit c' then int_digits r acc false else None
          | EmptyString => None
          end
        else None
      else None
  end.

Fixpoint count_digits (s : string) : Z :=
  match s with
  | EmptyString => 0
  | String c r => (if is_digit c then 1 else 0) + count_digits r
  end.

(** CPython's default limit on the digits of a decimal literal
    ([sys.int_info.default_max_str_digits]). *)
Definition int_max_str_digits : Z := 4300.

(** The white space [int()] skips at both ends of a string: the code points
    9 to 13, 32, 133 and 160.  The separators 28 to 31, which [str.strip()]
    drops, are no white space to [int()]: [int] of a string that starts or
    ends with one of them is a [ValueError]. *)
Definition int_isspace (c : ascii) : bool :=
  let n := nat_of_ascii c in
  ((9 <=? n) && (n <=? 13) || (n =? 32) || (n =? 133) || (n =? 160))%nat.

Fixpoint int_lstrip (s : string) : string :=
  match s with
  | String c r => if int_isspace c then int_lstrip r else s
  | EmptyString => EmptyString
  end.

Fixpoint int_rstrip (s : string) : string :=
  match s with
  | EmptyString => EmptyString
  | String c r =>
      match int_rstrip r with
      | EmptyString => if int_isspace c then EmptyString else String c EmptyString
      | r' => String c r'
      end
  end.

Definition int_strip (s : string) : string := int_rstrip (int_lstrip s).

(** [int(s)] for a string: white space skipped at both ends, an optional
    sign, then the decimal digits. *)
Definition int_of_str (s : string) : outcome Z :=
  let t := int_strip s in
  let '(negative, body) :=
    match t with
    | String "-"%char r => (true, r)
    | String "+"%char r => (false, r)
    | _ => (false, t)
    end in
  if int_max_str_digits <? count_digits body then Raise ValueError
  else match int_digits body 0 false with
       | Some n => Return (if negative then - n else n)
       | None => Raise ValueError
       end.

(** [int(f)] truncates towards zero. *)
Definition int_of_float (f : pyfloat) : outcome Z :=
  match f with
  | Finite m e => Return (if 0 <=? e then m * 2 ^ e else Z.quot m (2 ^ (- e)))
  | Inf _ => Raise OverflowError
  | NaN => Raise ValueError
  end.

Definition py_int (v : pyvalue) : outcome Z :=
  match v with
  | PInt z => Return z
  | PBool b => Return (if b then 1 else 0)
  | PFloat f => int_of_float f
  | PStr s => int_of_str s
  | PNone | PList _ | PDict _ | PDatetime _ => Raise TypeError
  end.

(** [str(n)] for an [int]. *)
Definition py_str_int (n : Z) : string := NilZero.string_of_int (Z.to_int n).

(** *** Time *)

(** [timedelta(minutes=m)], in microseconds. *)
Definition timedelta_minutes (m : Z) : Z := m * 60 * 1000000.

(** [calendar.timegm(d.utctimetuple())]: whole seconds since the epoch; the
    microseconds of [d] are dropped. *)
Definition timegm (us : Z) : Z := us / 1000000.

(* ===================================================================== *)
(** ** The external library: [jose.jwt] *)
(* ===================================================================== *)

(** The three entry points of [jose.jwt] that matter here.  [jwt_decode]
    reads the clock itself ([datetime.utcnow()] in its expiry check), hence
    its last argument. *)
Record JoseLib := {
  (** [jwt.encode(claims, key, algorithm=...)] *)
  jwt_encode : pydict -> string -> string -> outcome string;
  (** [jwt.decode(token, key, algorithms=[...])], at a clock reading *)
  jwt_decode : string -> string -> list string -> Z -> outcome pydict;
  (** [jwt.get_unverified_claims(token)] *)
  jwt_get_unverified_claims : string -> outcome pydict
}.

(* ===================================================================== *)
(** ** [app/core/jwt.py] *)
(* ===================================================================== *)

Definition ALGORITHM : string := "HS256".
Definition ACCESS_TOKEN_EXPIRE_MINUTES : Z := 60.

Section TokenCodec.

Variable J : JoseLib.
(** [settings.SECRET_KEY], read from the environment. *)
Variable SECRET_KEY : string.

Definition create_access_token (utcnow : Z) (data : pydict) : outcome string :=
  let to_encode := data in
  let expire := utcnow + timedelta_minutes ACCESS_TOKEN_EXPIRE_MINUTES in
  let to_encode := dict_update "exp" (PDatetime expire) to_encode in
  jwt_encode J to_encode SECRET_KEY ALGORITHM.

(** [dict | None]: [None] is the failure signal. *)
Definition decode_access_token (utcnow : Z) (token : string)
  : outcome (option pydict) :=
  match jwt_decode J token SECRET_KEY [ALGORITHM] utcnow with
  | Return payload => Return (Some payload)
  | Raise e => if is_JWTError e then Return None else Raise e
  end.

End TokenCodec.

(* ===================================================================== *)
(** ** Requests and responses *)
(* ===================================================================== *)

(** [request.state.user] is [None] until the middleware sets it. *)
Record request := {
  method : string;
  path : string;
  headers : list (string * string);
  state_user : option pydict
}.

Definition set_state_user (req : request) (user : pydict) : request :=
  {| method := method req; path := path req; headers := headers req;
     state_user := Some user |}.

Definition ascii_lower (c : ascii) : ascii :=
  let n := nat_of_ascii c in
  if ((65 <=? n) && (n <=? 90))%nat then ascii_of_nat (n + 32) else c.

Fixpoint lower (s : string) : string :=
  match s with
  | EmptyString => EmptyString
  | String c r => String (ascii_lower c) (lower r)
  end.

(** [request.headers.get(name)]: header names compare without case; the
    first match wins. *)
Fixpoint headers_get (name : string) (hs : list (string * string)) : option string :=
  match hs with
  | [] => None
  | (n, v) :: hs' =>
      if String.eqb (lower n) (lower name) then Some v else headers_get name hs'
  end.

(** The truth value of an optional string ([not auth_header]). *)
Definition truthy_str (o : option string) : bool :=
  match o with
  | Some s => truthy (PStr s)
  | None => false
  end.

(** The truth value of an optional dict ([not payload], [not user]). *)
Definition truthy_dict (o : option pydict) : bool :=
  match o with
  | Some d => truthy (PDict d)
  | None => false
  end.

(** [JSONResponse(status_code=..., content=...)]. *)
Record JSONResponse := {
  status_code : Z;
  content : pydict
}.

Definition HTTP_401_UNAUTHORIZED : Z := 401.
Definition HTTP_403_FORBIDDEN : Z := 403.

(* ===================================================================== *)
(** ** [app/middleware/auth_middleware.py] *)
(* ===================================================================== *)

Definition PUBLIC_PATHS : list string :=
  ["/api/auth"; "/docs"; "/redoc"; "/openapi.json"; "/health"].

(** How [dispatch] ends: with a response of its own, with
    [call_next(request)], or with an exception that nothing caught. *)
Inductive reply :=
| Response (r : JSONResponse)
| CallNext
| Uncaught (e : exn).

Definition detail_response (status : Z) (detail : string) : JSONResponse :=
  {| status_code := status; content := [("detail", PStr detail)] |}.

Section AuthMiddleware.

Variable J : JoseLib.
Variable SECRET_KEY : string.

(** The request object is mutable: [dispatch] returns it as it is when
    [dispatch] ends, next to the reply. *)
Definition dispatch (utcnow : Z) (req : request) : request * reply :=
  if String.eqb (method req) "OPTIONS" then (req, CallNext)
  else if existsb (fun p => startswith p (path req)) PUBLIC_PATHS then (req, CallNext)
  else
    let auth_header := headers_get "Authorization" (headers req) in
    if negb (truthy_str auth_header) then
      (req, Response (detail_response HTTP_401_UNAUTHORIZED "Authorization header missing"))
    else
      let h := match auth_header with Some h => h | None => "" end in
      if negb (startswith "Bearer " h) then
        (req, Response (detail_response HTTP_401_UNAUTHORIZED
                          "Invalid authorization format"))
      else
        match list_item (split_space_once h) 1 with
        | Raise e => (req, Uncaught e)
        | Return piece =>
            let token := strip piece in
            if negb (truthy (PStr token)) then
              (req, Response (detail_response HTTP_401_UNAUTHORIZED "Token not provided"))
            else
              match decode_access_token J SECRET_KEY utcnow token with
              | Raise e =>
                  if is_JWTError e then
                    (req, Response (detail_response HTTP_401_UNAUTHORIZED
                                      "Invalid or expired token"))
                  else (req, Uncaught e)
              | Return payload =>
                  if negb (truthy_dict payload) then
                    (req, Response (detail_response HTTP_401_UNAUTHORIZED
                                      "Invalid token payload"))
                  else
                    let p := match payload with Some p => p | None => [] end in
                    let user_id := dict_get "sub" p in
                    if negb (truthy user_id) then
                      (req, Response (detail_response HTTP_401_UNAUTHORIZED
                                        "User identity missing in token"))
                    else
                      match py_int user_id with
                      | Raise e => (req, Uncaught e)
                      | Return n =>
                          (set_state_user req
                             [("id", PInt n);
                              ("role", dict_get_default "role" (PStr "USER") p);
                              ("permissions",
                                dict_get_default "permissions" (PList []) p)],
                           CallNext)
                      end
              end
        end.

End AuthMiddleware.

(* ===================================================================== *)
(** ** [app/utils/decorators.py] and [app/core/permissions.py] *)
(* ===================================================================== *)

(** The two files define the same [require_permission]; each is embedded
    under its own module. *)
Module Decorators.

Definition permission_checker (action resource : string) (req : request)
  : outcome bool :=
  let user := state_user req in
  if negb (truthy_dict user) then
    Raise (HTTPException HTTP_401_UNAUTHORIZED "Authentication required")
  else
    let u := match user with Some u => u | None => [] end in
    let role := dict_get "role" u in
    let permissions := dict_get_default "permissions" (PList []) u in
    if py_eq_str "ADMIN" role then Return true
    else
      let required_permission := action ++ ":" ++ resource in
      found <- py_contains_str required_permission permissions ;;
      if negb found then
        Raise (HTTPException HTTP_403_FORBIDDEN
                 "You do not have permission to perform this action")
      else Return true.

Definition require_permission (action resource : string)
  : request -> outcome bool :=
  permission_checker action resource.

End Decorators.

Module Permissions.

Definition permission_checker (action resource : string) (req : request)
  : outcome bool :=
  let user := state_user req in
  if negb (truthy_dict user) then
    Raise (HTTPException HTTP_401_UNAUTHORIZED "Authentication required")
  else
    let u := match user with Some u => u | None => [] end in
    let role := dict_get "role" u in
    let permissions := dict_get_default "permissions" (PList []) u in
    if py_eq_str "ADMIN" role then Return true
    else
      let required_permission := action ++ ":" ++ resource in
      found <- py_contains_str required_permission permissions ;;
      if negb found then
        Raise (HTTPException HTTP_403_FORBIDDEN
                 "You do not have permission to perform this action")
      else Return true.

Definition require_permission (action resource : string)
  : request -> outcome bool :=
  permission_checker action resource.

End Permissions.

(* ===================================================================== *)
(** ** [app/models/models.py], [app/repositories/user_repository.py] *)
(* ===================================================================== *)

(** The columns of [roles] and [users] that the login path reads. *)
Record Role := {
  role_id : Z;
  role_name : string
}.

Record User := {
  user_id : Z;
  user_role_id : Z;
  user_email : string;
  user_phone : option string;
  user_password_hash : string;
  user_is_active : bool;
  user_is_verified : bool
}.

Record database := {
  db_users : list User;
  db_roles : list Role
}.

(** [result.scalar_one_or_none()]. *)
Definition scalar_one_or_none {A : Type} (rows : list A) : outcome (option A) :=
  match rows with
  | [] => Return None
  | [r] => Return (Some r)
  | _ => Raise MultipleResultsFound
  end.

Section UserRepository.

(** Equality of two strings as the database's collation decides it. *)
Variable sql_str_eq : string -> string -> bool.
(** Equality of the integer column [users.id] with a bound parameter. *)
Variable sql_id_eq : Z -> pyvalue -> bool.

Definition phone_matches (u : User) (identifier : string) : bool :=
  match user_phone u with
  | Some p => sql_str_eq p identifier
  | None => false
  end.

(** The rows of [users JOIN roles ON users.role_id = roles.id] that the
    [WHERE] clause keeps; a row carries the user with its role. *)
Definition login_rows (db : database) (identifier role_name' : string)
  : list (User * Role) :=
  flat_map
    (fun u =>
       map (fun r => (u, r))
         (filter
            (fun r =>
               (user_role_id u =? role_id r)
               && sql_str_eq (role_name r) role_name'
               && (sql_str_eq (user_email u) identifier
                   || phone_matches u identifier))
            (db_roles db)))
    (db_users db).

Definition get_user_for_login (db : database) (identifier role_name' : string)
  : outcome (option (User * Role)) :=
  scalar_one_or_none (login_rows db identifier role_name').

Definition get_by_id (db : database) (uid : pyvalue) : outcome (option User) :=
  scalar_one_or_none (filter (fun u => sql_id_eq (user_id u) uid) (db_users db)).

End UserRepository.

(* ===================================================================== *)
(** ** [app/services/auth_service.py] *)
(* ===================================================================== *)

Section AuthService.

Variable J : JoseLib.
Variable SECRET_KEY : string.
Variable sql_str_eq : string -> string -> bool.
(** [app.core.security.verify_password(password, password_hash)]; the
    module [app/core/security.py] is not among the sources. *)
Variable verify_password : string -> string -> bool.

(** The fixed permission list of a role. *)
Definition role_permissions (name : string) : list string :=
  if String.eqb name "ADMIN" then ["admin:*"]
  else if String.eqb name "COLLEGE_ADMIN" then
    ["view:college_dashboard"; "view:students"; "view:courses"]
  else if String.eqb name "TEACHER" then ["view:courses"; "create:tests"]
  else if String.eqb name "STUDENT" then ["view:student_dashboard"]
  else [].

(** The claims handed to [create_access_token]. *)
Definition login_claims (uid : Z) (name : string) : pydict :=
  [("sub", PStr (py_str_int uid));
   ("role", PStr name);
   ("permissions", PList (map PStr (role_permissions name)))].

Definition login (utcnow : Z) (db : database) (email password role : string)
  : outcome pydict :=
  found <- get_user_for_login sql_str_eq db email role ;;
  match found with
  | None =>
      Raise (HTTPException HTTP_401_UNAUTHORIZED
               "Invalid credentials for selected role")
  | Some (user, user_role) =>
      if negb (user_is_active user) then
        Raise (HTTPException HTTP_403_FORBIDDEN "User account is inactive")
      else if negb (user_is_verified user) then
        Raise (HTTPException HTTP_403_FORBIDDEN "User account is not verified")
      else if negb (verify_password password (user_password_hash user)) then
        Raise (HTTPException HTTP_401_UNAUTHORIZED "Invalid credentials")
      else
        let name := role_name user_role in
        access_token <-
          create_access_token J SECRET_KEY utcnow (login_claims (user_id user) name) ;;
        Return [("access_token", PStr access_token);
                ("token_type", PStr "bearer");
                ("role", PStr name)]
  end.

End AuthService.

(* ===================================================================== *)
(** ** [app/middleware/error_handler.py] *)
(* ===================================================================== *)

(** [http_exception_handler]: how an [HTTPException] raised by a route or a
    dependency reaches the client. *)
Definition http_exception_handler (status : Z) (detail : string) : JSONResponse :=
  {| status_code := status;
     content := [("success", PBool false); ("message", PStr detail)] |}.

(** [global_exception_handler]: every other exception (the handlers for
    [RequestValidationError] and [IntegrityError] concern exceptions that
    the code embedded here does not raise). *)
Definition global_exception_handler : JSONResponse :=
  {| status_code := 500;
     content := [("success", PBool false); ("message", PStr "Internal server error")] |}.

(** The response to a failed call, through the registered handlers. *)
Definition exception_response (e : exn) : JSONResponse :=
  match e with
  | HTTPException status detail => http_exception_handler status detail
  | _ => global_exception_handler
  end.

(* ===================================================================== *)
(** ** [app/api/routes/auth/auth_routes.py] *)
(* ===================================================================== *)

(** The response of [POST /api/auth/login] for what [AuthService.login]
    returned or raised: status 200 with the returned body, or the response
    of the exception handler. *)
Definition login_route (result : outcome pydict) : JSONResponse :=
  match result with
  | Return body => {| status_code := 200; content := body |}
  | Raise e => exception_response e
  end.

(* ===================================================================== *)
(** ** [app/core/dependencies.py] *)
(* ===================================================================== *)

Section Dependencies.

Variable J : JoseLib.
Variable SECRET_KEY : string.
Variable sql_id_eq : Z -> pyvalue -> bool.

Definition get_current_user (utcnow : Z) (req : request) (db : database)
  : outcome User :=
  let auth := headers_get "Authorization" (headers req) in
  let a := match auth with Some a => a | None => "" end in
  if negb (truthy_str auth) || negb (startswith "Bearer " a) then
    Raise (HTTPException 401 "Access token missing")
  else
    token <- list_item (split_space a) 1 ;;
    payload <- decode_access_token J SECRET_KEY utcnow token ;;
    if negb (truthy_dict payload) then
      Raise (HTTPException 401 "Invalid token")
    else
      let p := match payload with Some p => p | None => [] end in
      uid <- dict_item "user_id" p ;;
      user <- get_by_id sql_id_eq db uid ;;
      match user with
      | None => Raise (HTTPException 401 "User inactive")
      | Some u =>
          if negb (user_is_active u) then Raise (HTTPException 401 "User inactive")
          else Return u
      end.

End Dependencies.

(* ===================================================================== *)
(** ** The behaviour of [jose.jwt] that the application relies on *)
(* ===================================================================== *)

Fixpoint unique_keys (ks : list string) : bool :=
  match ks with
  | [] => true
  | k :: ks' => negb (existsb (String.eqb k) ks') && unique_keys ks'
  end.

(** What [json.dumps] accepts and [json.loads] gives back unchanged: no
    [datetime] anywhere, and the keys of every dict distinct (as they are in
    a Python dict). *)
Fixpoint json_value (v : pyvalue) : bool :=
  match v with
  | PList l => forallb json_value l
  | PDict d =>
      unique_keys (map fst d)
      && forallb (fun kv => let '(_, x) := kv in json_value x) d
  | PDatetime _ => false
  | _ => true
  end.

(** [jwt.encode] replaces a [datetime] under [exp], [iat] or [nbf] by its
    [timegm] before signing. *)
Definition convert_time_claim (k : string) (c : pydict) : pydict :=
  match dict_lookup k c with
  | Some (PDatetime us) => dict_update k (PInt (timegm us)) c
  | _ => c
  end.

Definition encode_time_claims (c : pydict) : pydict :=
  convert_time_claim "nbf" (convert_time_claim "iat" (convert_time_claim "exp" c)).

(** The expiry check of [jwt.decode]: [int(claims["exp"])] must not lie
    before the clock, read in whole seconds. *)
Definition exp_valid (c : pydict) (utcnow : Z) : bool :=
  match dict_lookup "exp" c with
  | None => true
  | Some v =>
      match py_int v with
      | Return e => timegm utcnow <=? e
      | Raise _ => false
      end
  end.

(** [sub], when present, must be a string. *)
Definition sub_valid (c : pydict) : bool :=
  match dict_lookup "sub" c with
  | None | Some (PStr _) => true
  | Some _ => false
  end.

(** The other registered claims that [jwt.decode] inspects. *)
Definition other_registered_claims : list string :=
  ["iat"; "nbf"; "aud"; "iss"; "jti"; "at_hash"].

Definition no_other_registered (c : pydict) : bool :=
  forallb (fun k => match dict_lookup k c with None => true | Some _ => false end)
          other_registered_claims.

(** The alphabet of a compact JWS: base64url characters and the dot. *)
Definition compact_char (c : ascii) : bool :=
  let n := nat_of_ascii c in
  ((48 <=? n) && (n <=? 57) || (65 <=? n) && (n <=? 90) || (97 <=? n) && (n <=? 122)
   || (n =? 45) || (n =? 95) || (n =? 46))%nat.

Fixpoint all_chars (f : ascii -> bool) (s : string) : bool :=
  match s with
  | EmptyString => true
  | String c r => f c && all_chars f r
  end.

Definition compact_token (tok : string) : bool :=
  negb (String.eqb tok "") && all_chars compact_char tok.

Record JoseContract (J : JoseLib) : Prop := {
  (** Claims that serialise to JSON are encoded under HS256. *)
  encode_returns : forall c k,
    json_value (PDict (encode_time_claims c)) = true ->
    exists tok, jwt_encode J c k "HS256" = Return tok;
  (** A token is a compact serialisation. *)
  encode_compact : forall c k a tok,
    jwt_encode J c k a = Return tok -> compact_token tok = true;
  (** Decoding a token with the key and an algorithm it was made with gives
      the claims back, when their registered claims pass validation. *)
  decode_encode : forall c k a algs utcnow tok,
    jwt_encode J c k a = Return tok ->
    In a algs ->
    json_value (PDict (encode_time_claims c)) = true ->
    exp_valid (encode_time_claims c) utcnow = true ->
    sub_valid (encode_time_claims c) = true ->
    no_other_registered (encode_time_claims c) = true ->
    jwt_decode J tok k algs utcnow = Return (encode_time_claims c);
  (** What [jwt.decode] returns are the claims the token carries, and their
      expiry has not passed. *)
  decode_claims : forall tok k algs utcnow c,
    jwt_decode J tok k algs utcnow = Return c ->
    jwt_get_unverified_claims J tok = Return c /\ exp_valid c utcnow = true;
  (** Failures are reported as [JWTError] or one of its subclasses. *)
  decode_raises : forall tok k algs utcnow e,
    jwt_decode J tok k algs utcnow = Raise e -> is_JWTError e = true
}.

(** The fourth law on its own, for statements that need nothing else of the
    library: what [jwt.decode] returns are the claims the token carries, and
    their expiry has not passed.  It says nothing on how [jwt.decode]
    fails. *)
Definition DecodeChecksExpiry (J : JoseLib) : Prop :=
  forall tok k algs utcnow c,
    jwt_decode J tok k algs utcnow = Return c ->
    jwt_get_unverified_claims J tok = Return c /\ exp_valid c utcnow = true.

(* ===================================================================== *)
(** ** A reference implementation of the library interface *)
(* ===================================================================== *)

(** An executable [JoseLib] with the structure of a signed token (header,
    claims, signature over both) on a simple prefix-free wire format; its
    signature is a keyed checksum, which stands in for HMAC-SHA256.  It
    shows that [JoseContract] can be met and lets the application functions
    be evaluated on concrete requests. *)
Module RefJose.

(** **** Wire format *)

Definition nibble (n : nat) : ascii := ascii_of_nat (97 + n).

Definition is_nibble (c : ascii) : bool :=
  let n := nat_of_ascii c in ((97 <=? n) && (n <=? 112))%nat.

Definition unbyte (hi lo : ascii) : ascii :=
  ascii_of_nat ((nat_of_ascii hi - 97) * 16 + (nat_of_ascii lo - 97)).

Fixpoint ser_str (s : string) : string :=
  match s with
  | EmptyString => "."
  | String c r =>
      let n := nat_of_ascii c in
      String (nibble (n / 16)) (String (nibble (n mod 16)) (ser_str r))
  end.

Fixpoint parse_str (s : string) : option (string * string) :=
  match s with
  | String c1 r1 =>
      if Ascii.eqb c1 "."%char then Some (EmptyString, r1)
      else match r1 with
           | String c2 r2 =>
               if is_nibble c1 && is_nibble c2 then
                 match parse_str r2 with
                 | Some (t, rest) => Some (String (unbyte c1 c2) t, rest)
                 | None => None
                 end
               else None
           | EmptyString => None
           end
  | EmptyString => None
  end.

Fixpoint ser_pos (p : positive) : string :=
  match p with
  | xH => "."
  | xO q => String "0"%char (ser_pos q)
  | xI q => String "1"%char (ser_pos q)
  end.

Fixpoint parse_pos (s : string) : option (positive * string) :=
  match s with
  | String c r =>
      if Ascii.eqb c "."%char then Some (xH, r)
      else if Ascii.eqb c "0"%char then
        match parse_pos r with Some (q, rest) => Some (xO q, rest) | None => None end
      else if Ascii.eqb c "1"%char then
        match parse_pos r with Some (q, rest) => Some (xI q, rest) | None => None end
      else None
  | EmptyString => None
  end.

Definition ser_Z (z : Z) : string :=
  match z with
  | Z0 => "z"
  | Zpos p => String "p"%char (ser_pos p)
  | Zneg p => String "m"%char (ser_pos p)
  end.

Definition parse_Z (s : string) : option (Z * string) :=
  match s with
  | String c r =>
      if Ascii.eqb c "z"%char then Some (Z0, r)
      else if Ascii.eqb c "p"%char then
        match parse_pos r with Some (p, rest) => Some (Zpos p, rest) | None => None end
      else if Ascii.eqb c "m"%char then
        match parse_pos r with Some (p, rest) => Some (Zneg p, rest) | None => None end
      else None
  | EmptyString => None
  end.

Definition ser_float (f : pyfloat) : string :=
  match f with
  | Finite m e => String "f"%char (ser_Z m ++ ser_Z e)
  | Inf false => "i"
  | Inf true => "j"
  | NaN => "n"
  end.

Definition parse_float (s : string) : option (pyfloat * string) :=
  match s with
  | String c r =>
      if Ascii.eqb c "f"%char then
        match parse_Z r with
        | Some (m, r1) =>
            match parse_Z r1 with
            | Some (e, r2) => Some (Finite m e, r2)
            | None => None
            end
        | None => None
        end
      else if Ascii.eqb c "i"%char then Some (Inf false, r)
      else if Ascii.eqb c "j"%char then Some (Inf true, r)
      else if Ascii.eqb c "n"%char then Some (NaN, r)
      else None
  | EmptyString => None
  end.

(** A value: a tag letter, then its content; a list or dict ends at [_]. *)
Fixpoint ser (v : pyvalue) : string :=
  match v with
  | PNone => "N"
  | PBool true => "T"
  | PBool false => "F"
  | PInt z => String "I"%char (ser_Z z)
  | PFloat f => String "R"%char (ser_float f)
  | PStr s => String "S"%char (ser_str s)
  | PList l =>
      String "L"%char
        ((fix ser_list (l : list pyvalue) : string :=
            match l with
            | [] => "_"
            | x :: l' => ser x ++ ser_list l'
            end) l)
  | PDict d =>
      String "D"%char
        ((fix ser_dict (d : list (string * pyvalue)) : string :=
            match d with
            | [] => "_"
            | (k, x) :: d' => ser_str k ++ ser x ++ ser_dict d'
            end) d)
  | PDatetime us => String "X"%char (ser_Z us)
  end.

Fixpoint ser_list (l : list pyvalue) : string :=
  match l with
  | [] => "_"
  | x :: l' => ser x ++ ser_list l'
  end.

Fixpoint ser_dict (d : pydict) : string :=
  match d with
  | [] => "_"
  | (k, x) :: d' => ser_str k ++ ser x ++ ser_dict d'
  end.

Fixpoint parse (fuel : nat) (s : string) {struct fuel} : option (pyvalue * string) :=
  match fuel with
  | O => None
  | S fuel' =>
      match s with
      | EmptyString => None
      | String c r =>
          if Ascii.eqb c "N"%char then Some (PNone, r)
          else if Ascii.eqb c "T"%char then Some (PBool true, r)
          else if Ascii.eqb c "F"%char then Some (PBool false, r)
          else if Ascii.eqb c "I"%char then
            match parse_Z r with Some (z, rest) => Some (PInt z, rest) | None => None end
          else if Ascii.eqb c "R"%char then
            match parse_float r with
            | Some (f, rest) => Some (PFloat f, rest)
            | None => None
            end
          else if Ascii.eqb c "S"%char then
            match parse_str r with Some (t, rest) => Some (PStr t, rest) | None => None end
          else if Ascii.eqb c "L"%char then
            match parse_list fuel' r with
            | Some (l, rest) => Some (PList l, rest)
            | None => None
            end
          else if Ascii.eqb c "D"%char then
            match parse_dict fuel' r with
            | Some (d, rest) => Some (PDict d, rest)
            | None => None
            end
          else if Ascii.eqb c "X"%char then
            match parse_Z r with
            | Some (z, rest) => Some (PDatetime z, rest)
            | None => None
            end
          else None
      end
  end
with parse_list (fuel : nat) (s : string) {struct fuel}
  : option (list pyvalue * string) :=
  match fuel with
  | O => None
  | S fuel' =>
      match s with
      | EmptyString => None
      | String c r =>
          if Ascii.eqb c "_"%char then Some ([], r)
          else
            match parse fuel' s with
            | Some (x, r1) =>
                match parse_list fuel' r1 with
                | Some (l, rest) => Some (x :: l, rest)
                | None => None
                end
            | None => None
            end
      end
  end
with parse_dict (fuel : nat) (s : string) {struct fuel}
  : option (pydict * string) :=
  match fuel with
  | O => None
  | S fuel' =>
      match s with
      | EmptyString => None
      | String c r =>
          if Ascii.eqb c "_"%char then Some ([], r)
          else
            match parse_str s with
            | Some (k, r1) =>
                match parse fuel' r1 with
                | Some (x, r2) =>
                    match parse_dict fuel' r2 with
                    | Some (d, rest) => Some ((k, x) :: d, rest)
                    | None => None
                    end
                | None => None
                end
            | None => None
            end
      end
  end.

(** Parsing never needs more steps than there are characters. *)
Definition parse_value (s : string) : option (pyvalue * string) :=
  parse (String.length s) s.

(** A value [v] parses back: enough fuel for its own characters finds [v]
    in front of whatever follows. *)
Definition parses (v : pyvalue) : Prop :=
  forall fuel rest, (String.length (ser v) <= fuel)%nat ->
                    parse fuel (ser v ++ rest) = Some (v, rest).

(** **** Signature: a keyed checksum of the signing input *)

Fixpoint checksum (s : string) (acc : Z) : Z :=
  match s with
  | EmptyString => acc
  | String c r => checksum r ((acc * 31 + Z.of_nat (nat_of_ascii c)) mod 2147483647)
  end.

Definition sign (key msg : string) : string :=
  ser_Z (checksum (key ++ "." ++ msg) 7).

Definition signing_input (alg : string) (claims : pyvalue) : string :=
  ser (PStr alg) ++ ser claims.

(** **** Validation of the registered claims, in the library's order *)

Definition check (ok : bool) (e : exn) : outcome unit :=
  if ok then Return tt else Raise e.

Definition validate_iat (c : pydict) : outcome unit :=
  match dict_lookup "iat" c with
  | None => Return tt
  | Some v =>
      match py_int v with
      | Return _ => Return tt
      | Raise _ => Raise (JWTClaimsError "Issued At claim (iat) must be an integer.")
      end
  end.

Definition validate_nbf (c : pydict) (utcnow : Z) : outcome unit :=
  match dict_lookup "nbf" c with
  | None => Return tt
  | Some v =>
      match py_int v with
      | Return n =>
          check (n <=? timegm utcnow)
                (JWTClaimsError "The token is not yet valid (nbf)")
      | Raise _ => Raise (JWTClaimsError "Not Before claim (nbf) must be an integer.")
      end
  end.

Definition validate_exp (c : pydict) (utcnow : Z) : outcome unit :=
  match dict_lookup "exp" c with
  | None => Return tt
  | Some v =>
      match py_int v with
      | Return e =>
          check (negb (e <? timegm utcnow))
                (ExpiredSignatureError "Signature has expired.")
      | Raise _ =>
          Raise (JWTClaimsError "Expiration Time claim (exp) must be an integer.")
      end
  end.

(** No audience is passed to [jwt.decode]: a token that names one is
    refused. *)
Definition validate_aud (c : pydict) : outcome unit :=
  match dict_lookup "aud" c with
  | None => Return tt
  | Some _ => Raise (JWTClaimsError "Invalid audience")
  end.

Definition validate_sub (c : pydict) : outcome unit :=
  check (sub_valid c) (JWTClaimsError "Subject must be a string.").

Definition validate_jti (c : pydict) : outcome unit :=
  match dict_lookup "jti" c with
  | None | Some (PStr _) => Return tt
  | Some _ => Raise (JWTClaimsError "JWT ID must be a string.")
  end.

Definition validate_claims (c : pydict) (utcnow : Z) : outcome unit :=
  _ <- validate_iat c ;;
  _ <- validate_nbf c utcnow ;;
  _ <- validate_exp c utcnow ;;
  _ <- validate_aud c ;;
  _ <- validate_sub c ;;
  validate_jti c.

(** **** The three entry points *)

Definition encode (claims : pydict) (key alg : string) : outcome string :=
  let claims' := encode_time_claims claims in
  if negb (String.eqb alg "HS256") then Raise (OtherError "JWSError")
  else if negb (json_value (PDict claims')) then Raise TypeError
  else
    let input := signing_input alg (PDict claims') in
    Return (input ++ sign key input).

(** Header and claims of a token, with what follows them. *)
Definition load (token : string) : outcome (string * pyvalue * string) :=
  match parse_value token with
  | Some (PStr alg, r1) =>
      match parse_value r1 with
      | Some (v, signature) => Return (alg, v, signature)
      | None => Raise (JWTError "Not enough segments")
      end
  | _ => Raise (JWTError "Not enough segments")
  end.

Definition claims_object (v : pyvalue) : outcome pydict :=
  match v with
  | PDict c =>
      if json_value v then Return c else Raise (JWTError "Invalid payload string")
  | _ => Raise (JWTError "Invalid payload string: must be a json object")
  end.

Definition decode (token key : string) (algorithms : list string) (utcnow : Z)
  : outcome pydict :=
  '(alg, v, signature) <- load token ;;
  _ <- check (existsb (String.eqb alg) algorithms)
             (JWTError "The specified alg value is not allowed") ;;
  _ <- check (String.eqb signature (sign key (signing_input alg v)))
             (JWTError "Signature verification failed.") ;;
  c <- claims_object v ;;
  _ <- validate_claims c utcnow ;;
  Return c.

Definition get_unverified_claims (token : string) : outcome pydict :=
  '(_, v, _) <- load token ;;
  claims_object v.

Definition lib : JoseLib :=
  {| jwt_encode := encode;
     jwt_decode := decode;
     jwt_get_unverified_claims := get_unverified_claims |}.

End RefJose.

(* ===================================================================== *)
(** ** A concrete deployment, for evaluation *)
(* ===================================================================== *)

Module Sample.

Definition key : string := "server-secret".

(** Stands for [verify_password]: here a hash is the password behind a
    fixed prefix. *)
Definition verify (password hash : string) : bool :=
  String.eqb ("hash:" ++ password) hash.

Definition id_eq (n : Z) (v : pyvalue) : bool :=
  match v with
  | PInt m => n =? m
  | _ => false
  end.

Definition roles : list Role :=
  [ {| role_id := 1; role_name := "ADMIN" |};
    {| role_id := 2; role_name := "COLLEGE_ADMIN" |};
    {| role_id := 3; role_name := "TEACHER" |};
    {| role_id := 4; role_name := "STUDENT" |} ].

Definition sam : User :=
  {| user_id := 7; user_role_id := 4; user_email := "sam@college.edu";
     user_phone := None; user_password_hash := "hash:pw7";
     user_is_active := true; user_is_verified := true |}.

Definition dana : User :=
  {| user_id := 8; user_role_id := 4; user_email := "dana@college.edu";
     user_phone := Some "5550108"; user_password_hash := "hash:pw8";
     user_is_active := false; user_is_verified := true |}.

Definition noor : User :=
  {| user_id := 9; user_role_id := 3; user_email := "noor@college.edu";
     user_phone := None; user_password_hash := "hash:pw9";
     user_is_active := true; user_is_verified := false |}.

Definition db : database :=
  {| db_users := [sam; dana; noor]; db_roles := roles |}.

Definition login_at (utcnow : Z) (email password role : string) : outcome pydict :=
  login RefJose.lib key String.eqb verify utcnow db email password role.

(** A request for a protected path with the given headers. *)
Definition get_dashboard (hs : list (string * string)) : request :=
  {| method := "GET"; path := "/api/student/dashboard"; headers := hs;
     state_user := None |}.

(** The token of a successful login of [sam] at clock reading [0]. *)
Definition sam_token : string :=
  match login_at 0 "sam@college.edu" "pw7" "STUDENT" with
  | Return body =>
      match dict_get "access_token" body with
      | PStr t => t
      | _ => ""
      end
  | Raise _ => ""
  end.

(** The claims that token carries. *)
Definition sam_claims : pydict :=
  [("sub", PStr "7"); ("role", PStr "STUDENT");
   ("permissions", PList [PStr "view:student_dashboard"]); ("exp", PInt 3600)].

(** A token, signed with the server's key, whose subject is no number. *)
Definition named_token : string :=
  match create_access_token RefJose.lib key 0 [("sub", PStr "abc")] with
  | Return t => t
  | Raise _ => ""
  end.

Definition second : Z := 1000000.

End Sample.

(* ===================================================================== *)
(** ** The time claims as [jose/jwt.py] checks them *)
(* ===================================================================== *)

(** [_validate_iat], [_validate_nbf] and [_validate_exp] read their claim
    with

      try: x = int(claims[k])
      except ValueError: raise JWTClaimsError(...)

    so of the exceptions of [int()] only [ValueError] becomes a
    [JWTClaimsError]; a [TypeError] ([int(None)], [int([])], [int({})]) or an
    [OverflowError] ([int(float("inf"))]) leaves [jwt.decode] as it is.  The
    rest of this library is the reference one. *)
Module JoseSource.

Definition claim_int (v : pyvalue) (msg : string) : outcome Z :=
  match py_int v with
  | Return n => Return n
  | Raise ValueError => Raise (JWTClaimsError msg)
  | Raise e => Raise e
  end.

Definition validate_iat (c : pydict) : outcome unit :=
  match dict_lookup "iat" c with
  | None => Return tt
  | Some v =>
      _ <- claim_int v "Issued At claim (iat) must be an integer." ;;
      Return tt
  end.

Definition validate_nbf (c : pydict) (utcnow : Z) : outcome unit :=
  match dict_lookup "nbf" c with
  | None => Return tt
  | Some v =>
      n <- claim_int v "Not Before claim (nbf) must be an integer." ;;
      RefJose.check (n <=? timegm utcnow)
                    (JWTClaimsError "The token is not yet valid (nbf)")
  end.

Definition validate_exp (c : pydict) (utcnow : Z) : outcome unit :=
  match dict_lookup "exp" c with
  | None => Return tt
  | Some v =>
      e <- claim_int v "Expiration Time claim (exp) must be an integer." ;;
      RefJose.check (negb (e <? timegm utcnow))
                    (ExpiredSignatureError "Signature has expired.")
  end.

Definition validate_claims (c : pydict) (utcnow : Z) : outcome unit :=
  _ <- validate_iat c ;;
  _ <- validate_nbf c utcnow ;;
  _ <- validate_exp c utcnow ;;
  _ <- RefJose.validate_aud c ;;
  _ <- RefJose.validate_sub c ;;
  RefJose.validate_jti c.

Definition decode (token key : string) (algorithms : list string) (utcnow : Z)
  : outcome pydict :=
  '(alg, v, signature) <- RefJose.load token ;;
  _ <- RefJose.check (existsb (String.eqb alg) algorithms)
                     (JWTError "The specified alg value is not allowed") ;;
  _ <- RefJose.check
         (String.eqb signature (RefJose.sign key (RefJose.signing_input alg v)))
         (JWTError "Signature verification failed.") ;;
  c <- RefJose.claims_object v ;;
  _ <- validate_claims c utcnow ;;
  Return c.

Definition lib : JoseLib :=
  {| jwt_encode := RefJose.encode;
     jwt_decode := decode;
     jwt_get_unverified_claims := RefJose.get_unverified_claims |}.

(** A token, signed with the server's key, whose [exp] is JSON's [null]. *)
Definition null_exp_token : string :=
  match RefJose.encode [("sub", PStr "7"); ("exp", PNone)] Sample.key ALGORITHM with
  | Return t => t
  | Raise _ => ""
  end.

(** A token, signed with the server's key, that expired at [3600] seconds
    and whose [iat] is [null]. *)
Definition null_iat_token : string :=
  match RefJose.encode [("sub", PStr "7"); ("iat", PNone); ("exp", PInt 3600)]
                       Sample.key ALGORITHM with
  | Return t => t
  | Raise _ => ""
  end.

End JoseSource.

(* ===================================================================== *)
(** ** Auxiliary definitions for the statements *)
(* ===================================================================== *)

(** Requests that the authentication gate lets through unchecked: the two
    tests at the head of [dispatch]. *)

Definition exempt (req : request) : bool :=
  String.eqb (method req) "OPTIONS"
  || existsb (fun p => startswith p (path req)) PUBLIC_PATHS.



(** ** Induction on Python values, through lists and dicts *)

Section PyvalueInduction.

Variable P : pyvalue -> Prop.
Hypothesis HNone : P PNone.
Hypothesis HBool : forall b, P (PBool b).
Hypothesis HInt : forall z, P (PInt z).
Hypothesis HFloat : forall f, P (PFloat f).
Hypothesis HStr : forall s, P (PStr s).
Hypothesis HList : forall l, Forall P l -> P (PList l).
Hypothesis HDict : forall d, Forall (fun kv => P (snd kv)) d -> P (PDict d).
Hypothesis HDatetime : forall us, P (PDatetime us).

Fixpoint pyvalue_nested_ind (v : pyvalue) : P v :=
  match v with
  | PNone => HNone
  | PBool b => HBool b
  | PInt z => HInt z
  | PFloat f => HFloat f
  | PStr s => HStr s
  | PList l =>
      HList l
        ((fix go (l : list pyvalue) : Forall P l :=
            match l with
            | [] => Forall_nil P
            | x :: l' => Forall_cons x (pyvalue_nested_ind x) (go l')
            end) l)
  | PDict d =>
      HDict d
        ((fix go (d : list (string * pyvalue)) : Forall (fun kv => P (snd kv)) d :=
            match d with
            | [] => Forall_nil _
            | (k, x) :: d' =>
                Forall_cons (P := fun kv => P (snd kv)) (k, x)
                  (pyvalue_nested_ind x) (go d')
            end) d)
  | PDatetime us => HDatetime us
  end.

End PyvalueInduction.

(* ===================================================================== *)
(** ** Route handlers: the access checks in front of the services *)
(* ===================================================================== *)

(** [request.state.user]: reading the attribute before the middleware has
    set it raises [AttributeError]. *)
Definition request_state_user (req : request) : outcome pydict :=
  match state_user req with
  | Some user => Return user
  | None => Raise (OtherError "AttributeError")
  end.

(** [v.role] and [v.name]: no type of [pyvalue] (a dict least of all) has an
    attribute of either name. *)
Definition py_getattr (v : pyvalue) (name : string) : outcome pyvalue :=
  Raise (OtherError "AttributeError").

(** [main.py]: [GET /health]. *)
Definition health_check : outcome pydict :=
  Return [("status", PStr "OK"); ("service", PStr "CRT Backend");
          ("version", PStr "1.0.0")].

Section Routes.

(** The service call a handler ends with, on the user context it passes. *)
Variable service : pydict -> outcome pyvalue.
(** A service call that takes no user, such as
    [service.get_admin_dashboard(db)]. *)
Variable get_admin_dashboard : outcome pyvalue.

(** [app/api/routes/college/student_routes.py] *)
Definition ensure_college_admin (user : pydict) : outcome unit :=
  if negb (py_eq_str "COLLEGE_ADMIN" (dict_get "role" user)) then
    Raise (HTTPException HTTP_403_FORBIDDEN "College admin access only")
  else Return tt.

(** [list_students], and with other services behind them
    [filter_students], [search_students], [add_single_student],
    [bulk_upload_students] and [student_progress]. *)
Definition list_students (req : request) : outcome pyvalue :=
  user <- request_state_user req ;;
  _ <- ensure_college_admin user ;;
  service user.

(** [app/api/routes/college/course_routes.py]: [assign_course], and
    likewise [list_college_courses]. *)
Definition assign_course (req : request) : outcome pyvalue :=
  user <- request_state_user req ;;
  if negb (py_eq_str "COLLEGE_ADMIN" (dict_get "role" user)) then
    Raise (HTTPException HTTP_403_FORBIDDEN "College admin access only")
  else service user.

(** [app/api/routes/college/dashboard_routes.py] *)
Definition college_dashboard (req : request) : outcome pydict :=
  _ <- Decorators.require_permission "view" "college_dashboard" req ;;
  user <- request_state_user req ;;
  dashboard_data <- service user ;;
  user' <- request_state_user req ;;
  college_admin_id <- dict_item "id" user' ;;
  Return [("message", PStr "Welcome College Admin");
          ("college_admin_id", college_admin_id);
          ("stats", dashboard_data)].

(** [app/api/routes/student/dashboard_routes.py] *)
Definition student_dashboard (req : request) : outcome pyvalue :=
  _ <- Decorators.require_permission "view" "student_dashboard" req ;;
  user <- request_state_user req ;;
  role <- py_getattr (PDict user) "role" ;;
  name <- py_getattr role "name" ;;
  if negb (py_eq_str "STUDENT" name) then
    Raise (HTTPException HTTP_403_FORBIDDEN "Student access only")
  else service user.

(** [app/api/routes/student/course_routes.py] *)
Definition list_my_courses (req : request) : outcome pyvalue :=
  _ <- Decorators.require_permission "view" "student_courses" req ;;
  user <- request_state_user req ;;
  role <- py_getattr (PDict user) "role" ;;
  name <- py_getattr role "name" ;;
  if negb (py_eq_str "STUDENT" name) then
    Raise (HTTPException HTTP_403_FORBIDDEN "Student access only")
  else service user.

Definition update_course_progress (req : request) : outcome pyvalue :=
  _ <- Decorators.require_permission "update" "student_courses" req ;;
  user <- request_state_user req ;;
  role <- py_getattr (PDict user) "role" ;;
  name <- py_getattr role "name" ;;
  if negb (py_eq_str "STUDENT" name) then
    Raise (HTTPException HTTP_403_FORBIDDEN "Student access only")
  else service user.

(** [app/api/routes/admin/dashboard_routes.py] *)
Definition admin_dashboard (req : request) : outcome pyvalue :=
  let user := state_user req in
  if negb (truthy_dict user) then Raise (HTTPException 401 "Not authenticated")
  else
    let u := match user with Some u => u | None => [] end in
    role <- dict_item "role" u ;;
    if negb (py_eq_str "ADMIN" role) then Raise (HTTPException 403 "Admins only")
    else get_admin_dashboard.

(** [app/api/routes/admin/course_file_routes.py]: [upload_course_file],
    and likewise the other handlers of the file. *)
Definition upload_course_file (req : request) : outcome pyvalue :=
  user <- request_state_user req ;;
  role <- dict_item "role" user ;;
  if negb (py_eq_str "ADMIN" role) then
    Raise (HTTPException HTTP_403_FORBIDDEN "Admin access only")
  else get_admin_dashboard.


End Routes.

(** [app/services/college/dashboard_service.py]: the checks at the head of
    [CollegeDashboardService.get_dashboard_data]; [queries] stands for the
    database part that follows, which receives the user id. *)
Definition get_dashboard_data (queries : pyvalue -> outcome pyvalue) (user : pydict)
  : outcome pyvalue :=
  if negb (py_eq_str "COLLEGE_ADMIN" (dict_get "role" user)) then
    Raise (HTTPException HTTP_403_FORBIDDEN "College admin access only")
  else
    let user_id := dict_get "id" user in
    if negb (truthy user_id) then
      Raise (HTTPException HTTP_401_UNAUTHORIZED "Invalid authentication token")
    else queries user_id.

(** The pairs that [require_permission] is bound to by the routes of the
    application (admin courses, colleges and tests; college dashboard;
    student courses and dashboard). *)
Definition route_guards : list (string * string) :=
  [("create", "courses"); ("view", "courses"); ("edit", "courses");
   ("delete", "courses"); ("create", "colleges"); ("view", "colleges");
   ("edit", "colleges"); ("view", "tests"); ("view", "college_dashboard");
   ("view", "student_courses"); ("update", "student_courses");
   ("view", "student_dashboard")].

(** The request as a route sees it behind the authentication gate:
    [call_next] runs the route on the request that [dispatch] hands on. *)
Inductive served (A : Type) :=
| ByGate (r : JSONResponse)
| ByRoute (result : outcome A)
| GateError (e : exn).
Arguments ByGate {A} r.
Arguments ByRoute {A} result.
Arguments GateError {A} e.

Definition behind_gate {A : Type} (J : JoseLib) (SECRET_KEY : string) (utcnow : Z)
           (route : request -> outcome A) (req : request) : served A :=
  match dispatch J SECRET_KEY utcnow req with
  | (req', CallNext) => ByRoute (route req')
  | (_, Response r) => ByGate r
  | (_, Uncaught e) => GateError e
  end.

(** The Identity Context that the gate attaches for a token of [login]:
    the user's id, the role and its fixed permissions. *)
Definition login_context (uid : Z) (role : string) : pydict :=
  [("id", PInt uid); ("role", PStr role);
   ("permissions", PList (map PStr (role_permissions role)))].

(** A character other than the space at which [split] cuts. *)
Definition not_blank (c : ascii) : bool := negb (Ascii.eqb c " "%char).

(** A character that [strip] keeps. *)
Definition no_space (c : ascii) : bool := negb (isspace c).

(** The value of a decimal numeral read from the left, after [acc]. *)
Fixpoint horner (d : Decimal.uint) (acc : Z) : Z :=
  match d with
  | Decimal.Nil => acc
  | Decimal.D0 d' => horner d' (10 * acc)
  | Decimal.D1 d' => horner d' (10 * acc + 1)
  | Decimal.D2 d' => horner d' (10 * acc + 2)
  | Decimal.D3 d' => horner d' (10 * acc + 3)
  | Decimal.D4 d' => horner d' (10 * acc + 4)
  | Decimal.D5 d' => horner d' (10 * acc + 5)
  | Decimal.D6 d' => horner d' (10 * acc + 6)
  | Decimal.D7 d' => horner d' (10 * acc + 7)
  | Decimal.D8 d' => horner d' (10 * acc + 8)
  | Decimal.D9 d' => horner d' (10 * acc + 9)
  end.

(* ===================================================================== *)
(** ** More of the sample deployment *)
(* ===================================================================== *)

Module SampleMore.

(** A token, signed with the server's key, that names a role and no
    subject. *)
Definition anonymous_token : string :=
  match create_access_token RefJose.lib Sample.key 0 [("role", PStr "ADMIN")] with
  | Return t => t
  | Raise _ => ""
  end.

(** A token whose permissions are one string, not a list of strings. *)
Definition text_permissions_token : string :=
  match create_access_token RefJose.lib Sample.key 0
          [("sub", PStr "12"); ("role", PStr "TEACHER");
           ("permissions", PStr "preview:courses")] with
  | Return t => t
  | Raise _ => ""
  end.

(** A token, signed with the server's key, with the claim [user_id] that
    [get_current_user] reads. *)
Definition user_id_token : string :=
  match create_access_token RefJose.lib Sample.key 0 [("user_id", PInt 7)] with
  | Return t => t
  | Raise _ => ""
  end.

(** A library whose [decode] fails with an exception outside the
    [JWTError] family. *)
Definition faulty_lib : JoseLib :=
  {| jwt_encode := RefJose.encode;
     jwt_decode := fun _ _ _ _ => Raise TypeError;
     jwt_get_unverified_claims := RefJose.get_unverified_claims |}.

(** Two students who gave the same phone number. *)
Definition ravi : User :=
  {| user_id := 21; user_role_id := 4; user_email := "ravi@college.edu";
     user_phone := Some "5550100"; user_password_hash := "hash:pw21";
     user_is_active := true; user_is_verified := true |}.

Definition rani : User :=
  {| user_id := 22; user_role_id := 4; user_email := "rani@college.edu";
     user_phone := Some "5550100"; user_password_hash := "hash:pw22";
     user_is_active := true; user_is_verified := true |}.

Definition db : database :=
  {| db_users := [Sample.sam; ravi; rani]; db_roles := Sample.roles |}.

Definition get (path' : string) (hs : list (string * string)) : request :=
  {| method := "GET"; path := path'; headers := hs; state_user := None |}.

End SampleMore.

(* ===================================================================== *)
(** * Properties *)
(* ===================================================================== *)

(** ** Strings *)

Lemma append_assoc (a b c : string) : ((a ++ b) ++ c = a ++ (b ++ c))%string.
Proof. induction a as [|x a IH]; simpl; [reflexivity | now rewrite IH]. Qed.

Lemma length_append (a b : string) :
  String.length (a ++ b) = (String.length a + String.length b)%nat.
Proof. induction a as [|x a IH]; simpl; [reflexivity | now rewrite IH]. Qed.

Lemma all_chars_append (f : ascii -> bool) (a b : string) :
  all_chars f (a ++ b) = all_chars f a && all_chars f b.
Proof.
  induction a as [|x a IH]; simpl; [reflexivity|].
  now rewrite IH, andb_assoc.
Qed.

(** ** The reference implementation meets the contract *)

Module RefJoseFacts.
Import RefJose.

Lemma ser_list_eq (l : list pyvalue) : ser (PList l) = String "L"%char (ser_list l).
Proof. reflexivity. Qed.

Lemma ser_dict_eq (d : pydict) : ser (PDict d) = String "D"%char (ser_dict d).
Proof. reflexivity. Qed.

Lemma byte_roundtrip (c : ascii) :
  let n := nat_of_ascii c in
  is_nibble (nibble (n / 16)) = true
  /\ is_nibble (nibble (n mod 16)) = true
  /\ Ascii.eqb (nibble (n / 16)) "."%char = false
  /\ Ascii.eqb (nibble (n / 16)) "_"%char = false
  /\ unbyte (nibble (n / 16)) (nibble (n mod 16)) = c.
Proof.
  destruct c as [[] [] [] [] [] [] [] []]; vm_compute; repeat split.
Qed.

Lemma parse_str_ser (s rest : string) :
  parse_str (ser_str s ++ rest) = Some (s, rest).
Proof.
  induction s as [|c s IH]; [reflexivity|].
  destruct (byte_roundtrip c) as (H1 & H2 & H3 & _ & H5).
  cbn [ser_str append parse_str].
  rewrite H3, H1, H2, IH, H5. reflexivity.
Qed.

Lemma parse_pos_ser (p : positive) (rest : string) :
  parse_pos (ser_pos p ++ rest) = Some (p, rest).
Proof.
  induction p as [q IH|q IH|]; cbn [ser_pos append parse_pos].
  - change (Ascii.eqb "1" ".") with false. change (Ascii.eqb "1" "0") with false.
    change (Ascii.eqb "1" "1") with true. cbv iota. now rewrite IH.
  - change (Ascii.eqb "0" ".") with false. change (Ascii.eqb "0" "0") with true.
    cbv iota. now rewrite IH.
  - reflexivity.
Qed.

Lemma parse_Z_ser (z : Z) (rest : string) :
  parse_Z (ser_Z z ++ rest) = Some (z, rest).
Proof.
  destruct z as [|p|p]; [reflexivity| |];
    cbn [ser_Z append parse_Z];
    [ change (Ascii.eqb "p" "z") with false; change (Ascii.eqb "p" "p") with true
    | change (Ascii.eqb "m" "z") with false; change (Ascii.eqb "m" "p") with false;
      change (Ascii.eqb "m" "m") with true ];
    cbv iota; now rewrite parse_pos_ser.
Qed.

Lemma parse_float_ser (f : pyfloat) (rest : string) :
  parse_float (ser_float f ++ rest) = Some (f, rest).
Proof.
  destruct f as [m e|[]|]; try reflexivity.
  cbn [ser_float append parse_float].
  change (Ascii.eqb "f" "f") with true. cbv iota.
  now rewrite append_assoc, !parse_Z_ser.
Qed.

(** A serialised value starts with its tag, a key with a nibble or a dot:
    never with the end marker. *)
Lemma ser_head (v : pyvalue) :
  exists c r, ser v = String c r /\ Ascii.eqb c "_"%char = false.
Proof. destruct v as [|[]| | | | | |]; cbn [ser]; eauto. Qed.

Lemma ser_str_head (s : string) :
  exists c r, ser_str s = String c r /\ Ascii.eqb c "_"%char = false.
Proof.
  destruct s as [|c s]; cbn [ser_str]; [eauto|].
  destruct (byte_roundtrip c) as (_ & _ & _ & H4 & _). eauto.
Qed.

Lemma ser_length_pos (v : pyvalue) : (1 <= String.length (ser v))%nat.
Proof. destruct (ser_head v) as (c & r & -> & _). simpl. lia. Qed.

Lemma ser_list_length_pos (l : list pyvalue) : (1 <= String.length (ser_list l))%nat.
Proof.
  destruct l as [|x l]; simpl; [lia|].
  rewrite length_append. pose proof (ser_length_pos x). lia.
Qed.

Lemma ser_dict_length_pos (d : pydict) : (1 <= String.length (ser_dict d))%nat.
Proof.
  destruct d as [|[k x] d]; simpl; [lia|].
  rewrite !length_append. pose proof (ser_length_pos x). lia.
Qed.

Lemma parse_list_ser (l : list pyvalue) :
  Forall parses l ->
  forall fuel rest, (String.length (ser_list l) <= fuel)%nat ->
                    parse_list fuel (ser_list l ++ rest) = Some (l, rest).
Proof.
  induction 1 as [|x l Hx _ IH]; intros fuel rest Hfuel.
  - destruct fuel as [|fuel]; [simpl in Hfuel; lia | reflexivity].
  - cbn [ser_list] in *. rewrite length_append in Hfuel.
    pose proof (ser_length_pos x). pose proof (ser_list_length_pos l).
    destruct fuel as [|fuel]; [lia|].
    rewrite append_assoc.
    destruct (ser_head x) as (c & r & Hser & Hc).
    cbn [parse_list]. rewrite Hser at 1. cbn [append]. rewrite Hc.
    rewrite Hx by lia. rewrite IH by lia. reflexivity.
Qed.

Lemma parse_dict_ser (d : pydict) :
  Forall (fun kv => parses (snd kv)) d ->
  forall fuel rest, (String.length (ser_dict d) <= fuel)%nat ->
                    parse_dict fuel (ser_dict d ++ rest) = Some (d, rest).
Proof.
  induction 1 as [|[k x] d Hx _ IH]; intros fuel rest Hfuel.
  - destruct fuel as [|fuel]; [simpl in Hfuel; lia | reflexivity].
  - cbn [ser_dict snd] in *. rewrite !length_append in Hfuel.
    pose proof (ser_length_pos x). pose proof (ser_dict_length_pos d).
    destruct fuel as [|fuel]; [lia|].
    rewrite !append_assoc.
    destruct (ser_str_head k) as (c & r & Hser & Hc).
    cbn [parse_dict]. rewrite Hser at 1. cbn [append]. rewrite Hc.
    rewrite parse_str_ser, Hx by lia. rewrite IH by lia. reflexivity.
Qed.

Lemma parse_ser (v : pyvalue) : parses v.
Proof.
  induction v as [|b|z|f|s|l IH|d IH|us] using pyvalue_nested_ind;
    intros fuel rest Hfuel;
    (destruct fuel as [|fuel];
     [ match type of Hfuel with
       | (String.length (ser ?v) <= _)%nat => pose proof (ser_length_pos v); lia
       end |]).
  - reflexivity.
  - destruct b; reflexivity.
  - cbn -[parse_Z ser_Z]. now rewrite parse_Z_ser.
  - cbn -[parse_float ser_float]. now rewrite parse_float_ser.
  - cbn -[parse_str ser_str]. now rewrite parse_str_ser.
  - rewrite ser_list_eq in *. cbn [String.length] in Hfuel.
    cbn -[parse_list ser_list]. rewrite (parse_list_ser l IH) by lia. reflexivity.
  - rewrite ser_dict_eq in *. cbn [String.length] in Hfuel.
    cbn -[parse_dict ser_dict]. rewrite (parse_dict_ser d IH) by lia. reflexivity.
  - cbn -[parse_Z ser_Z]. now rewrite parse_Z_ser.
Qed.

Lemma parse_value_ser (v : pyvalue) (rest : string) :
  parse_value (ser v ++ rest) = Some (v, rest).
Proof.
  unfold parse_value. apply parse_ser. rewrite length_append. lia.
Qed.

(** *** Tokens are compact *)

Lemma nibble_compact (c : ascii) :
  let n := nat_of_ascii c in
  compact_char (nibble (n / 16)) = true /\ compact_char (nibble (n mod 16)) = true.
Proof. destruct c as [[] [] [] [] [] [] [] []]; vm_compute; split; reflexivity. Qed.

Lemma ser_str_compact (s : string) : all_chars compact_char (ser_str s) = true.
Proof.
  induction s as [|c s IH]; [reflexivity|].
  destruct (nibble_compact c) as [H1 H2].
  cbn [ser_str all_chars]. now rewrite H1, H2, IH.
Qed.

Lemma ser_pos_compact (p : positive) : all_chars compact_char (ser_pos p) = true.
Proof. induction p as [q IH|q IH|]; cbn [ser_pos all_chars]; try rewrite IH; reflexivity. Qed.

Lemma ser_Z_compact (z : Z) : all_chars compact_char (ser_Z z) = true.
Proof. destruct z; cbn [ser_Z all_chars]; try rewrite ser_pos_compact; reflexivity. Qed.

Lemma ser_float_compact (f : pyfloat) : all_chars compact_char (ser_float f) = true.
Proof.
  destruct f as [m e|[]|]; try reflexivity.
  cbn [ser_float all_chars]. now rewrite all_chars_append, !ser_Z_compact.
Qed.

Lemma ser_compact (v : pyvalue) : all_chars compact_char (ser v) = true.
Proof.
  induction v as [|b|z|f|s|l IH|d IH|us] using pyvalue_nested_ind.
  - reflexivity.
  - destruct b; reflexivity.
  - cbn [ser all_chars]. now rewrite ser_Z_compact.
  - cbn [ser all_chars]. now rewrite ser_float_compact.
  - cbn [ser all_chars]. now rewrite ser_str_compact.
  - rewrite ser_list_eq. cbn [all_chars]. change (compact_char "L") with true.
    cbn [andb]. induction IH as [|x l Hx _ IHl]; [reflexivity|].
    cbn [ser_list]. now rewrite all_chars_append, Hx, IHl.
  - rewrite ser_dict_eq. cbn [all_chars]. change (compact_char "D") with true.
    cbn [andb]. induction IH as [|[k x] d Hx _ IHd]; [reflexivity|].
    cbn [ser_dict snd] in *.
    now rewrite !all_chars_append, ser_str_compact, Hx, IHd.
  - cbn [ser all_chars]. now rewrite ser_Z_compact.
Qed.

Lemma encode_inv (c : pydict) (k a tok : string) :
  encode c k a = Return tok ->
  json_value (PDict (encode_time_claims c)) = true
  /\ tok = signing_input a (PDict (encode_time_claims c))
            ++ sign k (signing_input a (PDict (encode_time_claims c))).
Proof.
  unfold encode.
  destruct (negb (String.eqb a "HS256")); [discriminate|].
  destruct (json_value (PDict (encode_time_claims c))); [|discriminate].
  cbv beta iota zeta delta [negb]. intros H. split; [reflexivity | congruence].
Qed.

Lemma signed_compact (a : string) (v : pyvalue) (signature : Z) :
  compact_token (signing_input a v ++ ser_Z signature) = true.
Proof.
  unfold compact_token, signing_input.
  rewrite !all_chars_append, !ser_compact, ser_Z_compact.
  destruct (ser_head (PStr a)) as (c & r & -> & _). reflexivity.
Qed.

Lemma encode_is_compact (c : pydict) (k a tok : string) :
  encode c k a = Return tok -> compact_token tok = true.
Proof.
  intros H. apply encode_inv in H as [_ ->]. apply signed_compact.
Qed.

(** *** Decoding what was encoded *)

Lemma existsb_eqb_In (a : string) (l : list string) :
  In a l -> existsb (String.eqb a) l = true.
Proof.
  intros H. apply existsb_exists. exists a. split; [assumption | apply String.eqb_refl].
Qed.

Lemma load_signed (a : string) (v : pyvalue) (signature : string) :
  load (signing_input a v ++ signature) = Return (a, v, signature).
Proof.
  unfold load, signing_input.
  now rewrite !append_assoc, parse_value_ser, parse_value_ser.
Qed.

Lemma validate_claims_accepts (c : pydict) (utcnow : Z) :
  exp_valid c utcnow = true ->
  sub_valid c = true ->
  no_other_registered c = true ->
  validate_claims c utcnow = Return tt.
Proof.
  unfold exp_valid, no_other_registered, other_registered_claims.
  cbn [forallb]. intros Hexp Hsub Hother.
  repeat (apply andb_prop in Hother; destruct Hother as [? Hother]).
  unfold validate_claims, validate_iat, validate_nbf, validate_exp, validate_aud,
    validate_sub, validate_jti.
  destruct (dict_lookup "iat" c); [discriminate|].
  destruct (dict_lookup "nbf" c); [discriminate|].
  destruct (dict_lookup "aud" c); [discriminate|].
  destruct (dict_lookup "jti" c); [discriminate|].
  rewrite Hsub. cbn [bind check].
  destruct (dict_lookup "exp" c) as [v|]; [|reflexivity].
  destruct (py_int v) as [e|]; [|discriminate].
  apply Z.leb_le in Hexp.
  destruct (Z.ltb_spec e (timegm utcnow)); [lia | reflexivity].
Qed.

Lemma decode_encode_ref (c : pydict) (k a : string) (algs : list string)
      (utcnow : Z) (tok : string) :
  encode c k a = Return tok ->
  In a algs ->
  exp_valid (encode_time_claims c) utcnow = true ->
  sub_valid (encode_time_claims c) = true ->
  no_other_registered (encode_time_claims c) = true ->
  decode tok k algs utcnow = Return (encode_time_claims c).
Proof.
  intros Henc Hin Hexp Hsub Hother.
  apply encode_inv in Henc as [Hjson ->].
  unfold decode. rewrite load_signed. cbn [bind].
  rewrite (existsb_eqb_In _ _ Hin), String.eqb_refl. cbn [check bind].
  unfold claims_object. rewrite Hjson. cbn [bind].
  now rewrite validate_claims_accepts.
Qed.

(** *** What decoding returns, and how it fails *)

Lemma validate_claims_exp (c : pydict) (utcnow : Z) :
  validate_claims c utcnow = Return tt -> exp_valid c utcnow = true.
Proof.
  unfold validate_claims, validate_exp, exp_valid.
  destruct (validate_iat c); [|discriminate].
  destruct (validate_nbf c utcnow); [|discriminate]. cbn [bind].
  destruct (dict_lookup "exp" c) as [v|]; [|reflexivity].
  destruct (py_int v) as [e|]; [|discriminate].
  destruct (Z.ltb_spec e (timegm utcnow)); [discriminate|].
  intros _. apply Z.leb_le. lia.
Qed.

Lemma decode_claims_ref (tok k : string) (algs : list string) (utcnow : Z) (c : pydict) :
  decode tok k algs utcnow = Return c ->
  get_unverified_claims tok = Return c /\ exp_valid c utcnow = true.
Proof.
  unfold decode, get_unverified_claims.
  destruct (load tok) as [[[a v] signature]|]; [|discriminate]. cbn [bind].
  destruct (check (existsb (String.eqb a) algs) _); [|discriminate]. cbn [bind].
  destruct (check (String.eqb signature _) _); [|discriminate]. cbn [bind].
  destruct (claims_object v) as [c'|]; [|discriminate]. cbn [bind].
  destruct (validate_claims c' utcnow) as [[]|] eqn:Hval; [|discriminate].
  cbn [bind]. intros [= <-]. split; [reflexivity|].
  now apply validate_claims_exp.
Qed.

Lemma load_raises (tok : string) (e : exn) :
  load tok = Raise e -> is_JWTError e = true.
Proof.
  unfold load. 
  destruct (parse_value tok) as [[[] r]|]; try (intros [= <-]; reflexivity).
  destruct (parse_value r) as [[]|]; intros [= <-]; reflexivity.
Qed.

Lemma check_raises (b : bool) (e0 e : exn) :
  check b e0 = Raise e -> e = e0.
Proof. destruct b; cbn; congruence. Qed.

Lemma claims_object_raises (v : pyvalue) (e : exn) :
  claims_object v = Raise e -> is_JWTError e = true.
Proof.
  unfold claims_object.
  destruct v; try (intros [= <-]; reflexivity).
  destruct (json_value _); intros [= <-]; reflexivity.
Qed.

Lemma validate_claims_raises (c : pydict) (utcnow : Z) (e : exn) :
  validate_claims c utcnow = Raise e -> is_JWTError e = true.
Proof.
  unfold validate_claims, validate_iat, validate_nbf, validate_exp, validate_aud,
    validate_sub, validate_jti, check.
  repeat match goal with
    | |- context [match dict_lookup ?k c with _ => _ end] => destruct (dict_lookup k c)
    | |- context [match py_int ?v with _ => _ end] => destruct (py_int v)
    | |- context [if ?b then _ else _] => destruct b
    | |- context [match ?p with PNone => _ | _ => _ end] => destruct p
    | _ => progress cbn [bind]
    end;
  intros [= <-]; reflexivity.
Qed.

Lemma decode_raises_ref (tok k : string) (algs : list string) (utcnow : Z) (e : exn) :
  decode tok k algs utcnow = Raise e -> is_JWTError e = true.
Proof.
  unfold decode.
  destruct (load tok) as [[[a v] signature]|e0] eqn:Hload;
    [|intros [= <-]; eapply load_raises; eassumption]. cbn [bind].
  destruct (check (existsb (String.eqb a) algs) _) as [|e0] eqn:H1;
    [|intros [= <-]; apply check_raises in H1; subst; reflexivity]. cbn [bind].
  destruct (check (String.eqb signature _) _) as [|e0] eqn:H2;
    [|intros [= <-]; apply check_raises in H2; subst; reflexivity]. cbn [bind].
  destruct (claims_object v) as [c|e0] eqn:H3;
    [|intros [= <-]; eapply claims_object_raises; eassumption]. cbn [bind].
  destruct (validate_claims c utcnow) as [|e0] eqn:H4;
    [discriminate|intros [= <-]; eapply validate_claims_raises; eassumption].
Qed.

Lemma contract : JoseContract lib.
Proof.
  constructor; cbn [jwt_encode jwt_decode jwt_get_unverified_claims lib].
  - intros c k Hjson. unfold encode. rewrite Hjson. cbn. eauto.
  - intros c k a tok. apply encode_is_compact.
  - intros c k a algs utcnow tok Henc Hin _ Hexp Hsub Hother.
    now apply (decode_encode_ref c k a).
  - intros tok k algs utcnow c. apply decode_claims_ref.
  - intros tok k algs utcnow e. apply decode_raises_ref.
Qed.

End RefJoseFacts.

(** The library with the source's time checks. *)
Module JoseSourceFacts.
Import JoseSource.

Lemma claim_int_returns (v : pyvalue) (msg : string) (n : Z) :
  claim_int v msg = Return n -> py_int v = Return n.
Proof.
  unfold claim_int. destruct (py_int v) as [m|e]; [intros [= <-]; reflexivity|].
  destruct e; discriminate.
Qed.

Lemma source_claims_exp (c : pydict) (utcnow : Z) :
  validate_claims c utcnow = Return tt -> exp_valid c utcnow = true.
Proof.
  unfold validate_claims, validate_exp, exp_valid.
  destruct (validate_iat c); [|discriminate].
  destruct (validate_nbf c utcnow); [|discriminate]. cbn [bind].
  destruct (dict_lookup "exp" c) as [v|]; [|reflexivity].
  destruct (claim_int v _) as [e|] eqn:Hint; [|discriminate].
  rewrite (claim_int_returns _ _ _ Hint). cbn [bind].
  destruct (Z.ltb_spec e (timegm utcnow)); [discriminate|].
  intros _. apply Z.leb_le. lia.
Qed.

(** The library with the source's time checks keeps the expiry law. *)
Lemma decode_checks_expiry : DecodeChecksExpiry lib.
Proof.
  intros tok k algs utcnow c. cbn [jwt_decode jwt_get_unverified_claims lib].
  unfold decode, RefJose.get_unverified_claims.
  destruct (RefJose.load tok) as [[[a v] signature]|]; [|discriminate]. cbn [bind].
  destruct (RefJose.check (existsb (String.eqb a) algs) _); [|discriminate]. cbn [bind].
  destruct (RefJose.check (String.eqb signature _) _); [|discriminate]. cbn [bind].
  destruct (RefJose.claims_object v) as [c'|]; [|discriminate]. cbn [bind].
  destruct (validate_claims c' utcnow) as [[]|] eqn:Hval; [|discriminate].
  cbn [bind]. intros [= <-]. split; [reflexivity|].
  now apply source_claims_exp.
Qed.

End JoseSourceFacts.

(* ===================================================================== *)
(** ** The authentication gate, case by case *)
(* ===================================================================== *)

Lemma prefix_append (p s : string) :
  String.prefix p s = true -> exists r, s = (p ++ r)%string.
Proof.
  revert s. induction p as [|c p IH]; intros s H.
  - exists s. reflexivity.
  - destruct s as [|c' s]; [discriminate|]. cbn [String.prefix] in H.
    destruct (ascii_dec c c') as [->|]; [|discriminate].
    destruct (IH s H) as [r ->]. exists r. reflexivity.
Qed.

Lemma bearer_header (h : string) :
  startswith "Bearer " h = true ->
  exists rest, h = ("Bearer " ++ rest)%string
               /\ list_item (split_space_once h) 1 = Return rest.
Proof.
  intros H. apply prefix_append in H as [rest ->]. exists rest. split; reflexivity.
Qed.

Lemma prefix_of_append (p r : string) : String.prefix p (p ++ r) = true.
Proof.
  induction p as [|c p IH]; [destruct r; reflexivity|].
  cbn [append String.prefix]. destruct (ascii_dec c c); [assumption | congruence].
Qed.

Lemma startswith_bearer (rest : string) : startswith "Bearer " ("Bearer " ++ rest) = true.
Proof. apply prefix_of_append. Qed.

Section Gate.

Variable J : JoseLib.
Variable SECRET_KEY : string.

Lemma dispatch_exempt (utcnow : Z) (req : request) :
  exempt req = true -> dispatch J SECRET_KEY utcnow req = (req, CallNext).
Proof.
  unfold exempt, dispatch. intros H.
  destruct (String.eqb (method req) "OPTIONS"); [reflexivity|].
  cbn [orb] in H. now rewrite H.
Qed.

(** The gate on a request that is not exempt, by the value of its
    [Authorization] header. *)
Lemma dispatch_missing (utcnow : Z) (req : request) :
  exempt req = false ->
  truthy_str (headers_get "Authorization" (headers req)) = false ->
  dispatch J SECRET_KEY utcnow req
  = (req, Response (detail_response 401 "Authorization header missing")).
Proof.
  unfold exempt, dispatch. intros H Hh.
  apply orb_false_elim in H as [-> ->]. now rewrite Hh.
Qed.

Lemma dispatch_bad_format (utcnow : Z) (req : request) (h : string) :
  exempt req = false ->
  headers_get "Authorization" (headers req) = Some h ->
  h <> "" ->
  startswith "Bearer " h = false ->
  dispatch J SECRET_KEY utcnow req
  = (req, Response (detail_response 401 "Invalid authorization format")).
Proof.
  unfold exempt, dispatch. intros H Hh Hne Hb.
  apply orb_false_elim in H as [-> ->]. rewrite Hh. cbn [truthy_str truthy].
  apply String.eqb_neq in Hne. rewrite Hne. cbn [negb]. now rewrite Hb.
Qed.

(** With a bearer header the gate goes on with the stripped remainder. *)
Lemma dispatch_bearer (utcnow : Z) (req : request) (rest : string) :
  exempt req = false ->
  headers_get "Authorization" (headers req) = Some ("Bearer " ++ rest) ->
  dispatch J SECRET_KEY utcnow req =
  let token := strip rest in
  if negb (truthy (PStr token)) then
    (req, Response (detail_response 401 "Token not provided"))
  else
    match decode_access_token J SECRET_KEY utcnow token with
    | Raise e =>
        if is_JWTError e then
          (req, Response (detail_response 401 "Invalid or expired token"))
        else (req, Uncaught e)
    | Return payload =>
        if negb (truthy_dict payload) then
          (req, Response (detail_response 401 "Invalid token payload"))
        else
          let p := match payload with Some p => p | None => [] end in
          let user_id := dict_get "sub" p in
          if negb (truthy user_id) then
            (req, Response (detail_response 401 "User identity missing in token"))
          else
            match py_int user_id with
            | Raise e => (req, Uncaught e)
            | Return n =>
                (set_state_user req
                   [("id", PInt n);
                    ("role", dict_get_default "role" (PStr "USER") p);
                    ("permissions", dict_get_default "permissions" (PList []) p)],
                 CallNext)
            end
    end.
Proof.
  unfold exempt. intros H Hh.
  apply orb_false_elim in H as [H1 H2].
  unfold dispatch. rewrite H1, H2, Hh. cbn [truthy_str truthy].
  rewrite startswith_bearer. reflexivity.
Qed.

(** [decode_access_token] lets no [JWTError] through. *)
Lemma decode_access_token_no_JWTError (utcnow : Z) (token : string) (e : exn) :
  decode_access_token J SECRET_KEY utcnow token = Raise e -> is_JWTError e = false.
Proof.
  unfold decode_access_token.
  destruct (jwt_decode J token SECRET_KEY [ALGORITHM] utcnow) as [c|e']; [discriminate|].
  destruct (is_JWTError e') eqn:He; [discriminate|]. now intros [= <-].
Qed.

End Gate.

(* ===================================================================== *)
(** ** The authorization gate *)
(* ===================================================================== *)

Lemma py_eq_str_spec (s : string) (v : pyvalue) : py_eq_str s v = true <-> v = PStr s.
Proof.
  destruct v; cbn [py_eq_str]; try (split; [discriminate | congruence]).
  rewrite String.eqb_eq. split; congruence.
Qed.

Lemma existsb_py_eq_str (s : string) (l : list pyvalue) :
  existsb (py_eq_str s) l = true <-> In (PStr s) l.
Proof.
  rewrite existsb_exists. split.
  - intros (v & Hin & Hv). apply py_eq_str_spec in Hv. now subst.
  - intros H. exists (PStr s). split; [assumption | now apply py_eq_str_spec].
Qed.

Lemma permission_checkers_agree (action resource : string) (req : request) :
  Permissions.permission_checker action resource req
  = Decorators.permission_checker action resource req.
Proof. reflexivity. Qed.

(** C1.  The guard bound to [(action, resource)], in either of its two
    copies: without an Identity Context on the request it raises 401; with
    one whose role is ["ADMIN"] it allows, whatever the permissions; with any
    other role it allows exactly when the string [action:resource] is an
    element of the context's permission list, and raises 403 when it is
    not. *)
Theorem C1_authorization_gate (action resource : string) (req : request) :
  Permissions.permission_checker action resource req
  = Decorators.permission_checker action resource req
  /\ match state_user req with
     | None =>
         Decorators.permission_checker action resource req
         = Raise (HTTPException 401 "Authentication required")
     | Some user =>
         user <> [] ->
         (dict_get "role" user = PStr "ADMIN" ->
          Decorators.permission_checker action resource req = Return true)
         /\ (forall permissions : list pyvalue,
                dict_get "role" user <> PStr "ADMIN" ->
                dict_get_default "permissions" (PList []) user = PList permissions ->
                (In (PStr (action ++ ":" ++ resource)) permissions ->
                 Decorators.permission_checker action resource req = Return true)
                /\ (~ In (PStr (action ++ ":" ++ resource)) permissions ->
                    Decorators.permission_checker action resource req
                    = Raise (HTTPException 403
                               "You do not have permission to perform this action")))
     end.
Proof.
  split; [reflexivity|].
  unfold Decorators.permission_checker.
  destruct (state_user req) as [user|]; [|reflexivity].
  intros Hne. destruct user as [|kv user]; [congruence|].
  cbn [truthy_dict truthy negb]. split.
  - intros ->. reflexivity.
  - intros permissions Hrole ->.
    destruct (py_eq_str "ADMIN" (dict_get "role" (kv :: user))) eqn:Hadmin;
      [apply py_eq_str_spec in Hadmin; congruence|].
    cbn [py_contains_str bind].
    destruct (existsb (py_eq_str (action ++ ":" ++ resource)) permissions) eqn:Hin.
    + split; [reflexivity|]. intros Hnot. apply existsb_py_eq_str in Hin. contradiction.
    + split; [|reflexivity]. intros H. apply existsb_py_eq_str in H. congruence.
Qed.

(** The match is literal: the pattern ["admin:*"] grants nothing by itself,
    and case matters. *)
Example guard_no_wildcard :
  Decorators.permission_checker "edit" "courses"
    (set_state_user (Sample.get_dashboard [])
       [("id", PInt 7); ("role", PStr "STUDENT");
        ("permissions", PList [PStr "admin:*"; PStr "Edit:Courses"; PStr "edit:*"])])
  = Raise (HTTPException 403 "You do not have permission to perform this action").
Proof. reflexivity. Qed.

Example guard_admin_bypass :
  Decorators.permission_checker "edit" "courses"
    (set_state_user (Sample.get_dashboard [])
       [("id", PInt 1); ("role", PStr "ADMIN"); ("permissions", PList [])])
  = Return true.
Proof. reflexivity. Qed.

(* ===================================================================== *)
(** ** The authentication gate: rejections before decoding *)
(* ===================================================================== *)

(** C3, as the code has it.  On a request that is not exempt the gate
    answers 401 and leaves the request without an Identity Context, in this
    order: when the [Authorization] header is absent or empty, with
    "Authorization header missing"; when it is not empty and does not start
    with ["Bearer "], with "Invalid authorization format"; when what follows
    ["Bearer "] is empty once stripped, with "Token not provided". *)
Theorem C3_gate_rejections (J : JoseLib) (SECRET_KEY : string) (utcnow : Z)
        (req : request) :
  exempt req = false ->
  let reject detail := (req, Response (detail_response 401 detail)) in
  match headers_get "Authorization" (headers req) with
  | None => dispatch J SECRET_KEY utcnow req = reject "Authorization header missing"
  | Some h =>
      (h = "" -> dispatch J SECRET_KEY utcnow req = reject "Authorization header missing")
      /\ (h <> "" -> startswith "Bearer " h = false ->
          dispatch J SECRET_KEY utcnow req = reject "Invalid authorization format")
      /\ (forall rest, h = "Bearer " ++ rest -> strip rest = "" ->
          dispatch J SECRET_KEY utcnow req = reject "Token not provided")
  end.
Proof.
  intros Hex reject.
  destruct (headers_get "Authorization" (headers req)) as [h|] eqn:Hh.
  - split; [|split].
    + intros ->. apply dispatch_missing; [assumption | now rewrite Hh].
    + intros Hne Hb. now apply (dispatch_bad_format J SECRET_KEY utcnow req h).
    + intros rest -> Hstrip.
      rewrite (dispatch_bearer J SECRET_KEY utcnow req rest Hex Hh).
      cbv zeta. now rewrite Hstrip.
  - apply dispatch_missing; [assumption | now rewrite Hh].
Qed.

Lemma C3_gate_rejections_witness :
  let req := Sample.get_dashboard [("Authorization", "Basic abc")] in
  exempt req = false
  /\ dispatch RefJose.lib Sample.key 0 req
     = (req, Response (detail_response 401 "Invalid authorization format")).
Proof.
  intros req. split; [reflexivity|].
  pose proof (C3_gate_rejections RefJose.lib Sample.key 0 req eq_refl) as H.
  cbv zeta in H. change (headers_get "Authorization" (headers req))
    with (Some "Basic abc") in H.
  destruct H as (_ & H & _). apply H; [discriminate | reflexivity].
Defined.

(** The case that separates the claim as worded from the code: an
    [Authorization] header that is present with an empty value does not
    begin with the bearer scheme, and is answered as a missing header. *)
Lemma C3_empty_header_counterexample :
  let req := Sample.get_dashboard [("Authorization", "")] in
  exempt req = false
  /\ headers_get "Authorization" (headers req) = Some ""
  /\ startswith "Bearer " "" = false
  /\ dispatch RefJose.lib Sample.key 0 req
     = (req, Response (detail_response 401 "Authorization header missing"))
  /\ dispatch RefJose.lib Sample.key 0 req
     <> (req, Response (detail_response 401 "Invalid authorization format")).
Proof. repeat split; discriminate. Qed.

(* ===================================================================== *)
(** ** The authentication gate: after decoding *)
(* ===================================================================== *)

Lemma reply_of_dispatch_not_expired (J : JoseLib) (SECRET_KEY : string) (utcnow : Z)
      (req : request) :
  snd (dispatch J SECRET_KEY utcnow req)
  <> Response (detail_response 401 "Invalid or expired token").
Proof.
  unfold dispatch.
  repeat match goal with
    | |- context [match decode_access_token ?a ?b ?c ?d with _ => _ end] =>
        let He := fresh "He" in
        destruct (decode_access_token a b c d) as [?|e] eqn:He;
        [| rewrite (decode_access_token_no_JWTError _ _ _ _ _ He)]
    | |- context [if ?b then _ else _] => destruct b
    | |- context [match ?x with _ => _ end] => destruct x
    end; cbn [snd]; discriminate.
Qed.

(** C10.  No [JWTError] leaves [decode_access_token], so the gate never
    answers "Invalid or expired token"; a token for which
    [decode_access_token] returns [None] (malformed, wrongly signed or
    expired alike) is answered with 401 "Invalid token payload". *)
Theorem C10_codec_rejections_at_the_gate (J : JoseLib) (SECRET_KEY : string)
        (utcnow : Z) :
  (forall token e,
      decode_access_token J SECRET_KEY utcnow token = Raise e -> is_JWTError e = false)
  /\ (forall req,
         snd (dispatch J SECRET_KEY utcnow req)
         <> Response (detail_response 401 "Invalid or expired token"))
  /\ (forall req rest,
         exempt req = false ->
         headers_get "Authorization" (headers req) = Some ("Bearer " ++ rest) ->
         strip rest <> "" ->
         decode_access_token J SECRET_KEY utcnow (strip rest) = Return None ->
         dispatch J SECRET_KEY utcnow req
         = (req, Response (detail_response 401 "Invalid token payload"))).
Proof.
  split; [|split].
  - intros token e. apply decode_access_token_no_JWTError.
  - intros req. apply reply_of_dispatch_not_expired.
  - intros req rest Hex Hh Hne Hdec.
    rewrite (dispatch_bearer J SECRET_KEY utcnow req rest Hex Hh). cbv zeta.
    cbn [truthy]. apply String.eqb_neq in Hne. rewrite Hne, Hdec. reflexivity.
Qed.

(** An expired token of the system and a token signed with another key, at
    the gate. *)
Example gate_expired_token :
  let req := Sample.get_dashboard [("Authorization", "Bearer " ++ Sample.sam_token)] in
  dispatch RefJose.lib Sample.key (3601 * Sample.second) req
  = (req, Response (detail_response 401 "Invalid token payload")).
Proof. vm_compute. reflexivity. Qed.

Example gate_foreign_token :
  let req := Sample.get_dashboard [("Authorization", "Bearer " ++ Sample.sam_token)] in
  dispatch RefJose.lib "another-key" 0 req
  = (req, Response (detail_response 401 "Invalid token payload")).
Proof. vm_compute. reflexivity. Qed.

(** C5, as the code has it.  When the token validates and its subject is a
    true value that [int()] accepts, the gate attaches the Identity Context
    [{id: int(sub), role: role or "USER", permissions: permissions or []}]
    and passes the request on. *)
Theorem C5_identity_context (J : JoseLib) (SECRET_KEY : string) (utcnow : Z)
        (req : request) (rest : string) (payload : pydict) (n : Z) :
  exempt req = false ->
  headers_get "Authorization" (headers req) = Some ("Bearer " ++ rest) ->
  strip rest <> "" ->
  decode_access_token J SECRET_KEY utcnow (strip rest) = Return (Some payload) ->
  truthy (dict_get "sub" payload) = true ->
  py_int (dict_get "sub" payload) = Return n ->
  dispatch J SECRET_KEY utcnow req
  = (set_state_user req
       [("id", PInt n);
        ("role", match dict_lookup "role" payload with
                 | Some role => role
                 | None => PStr "USER"
                 end);
        ("permissions", match dict_lookup "permissions" payload with
                        | Some permissions => permissions
                        | None => PList []
                        end)],
     CallNext).
Proof.
  intros Hex Hh Hne Hdec Hsub Hint.
  rewrite (dispatch_bearer J SECRET_KEY utcnow req rest Hex Hh). cbv zeta.
  cbn [truthy]. apply String.eqb_neq in Hne. rewrite Hne, Hdec. cbn [negb].
  assert (Hp : truthy_dict (Some payload) = true).
  { destruct payload; [discriminate Hsub | reflexivity]. }
  rewrite Hp, Hsub, Hint. reflexivity.
Qed.

Lemma C5_identity_context_witness :
  let req := Sample.get_dashboard [("Authorization", "Bearer " ++ Sample.sam_token)] in
  dispatch RefJose.lib Sample.key 0 req
  = (set_state_user req
       [("id", PInt 7); ("role", PStr "STUDENT");
        ("permissions", PList [PStr "view:student_dashboard"])],
     CallNext).
Proof.
  intros req.
  exact (C5_identity_context RefJose.lib Sample.key 0 req Sample.sam_token
           [("sub", PStr "7"); ("role", PStr "STUDENT");
            ("permissions", PList [PStr "view:student_dashboard"]);
            ("exp", PInt 3600)] 7
           eq_refl eq_refl ltac:(vm_compute; discriminate)
           ltac:(vm_compute; reflexivity) eq_refl ltac:(vm_compute; reflexivity)).
Defined.

(** The case that separates the claim as worded from the code: a token that
    validates and carries the subject ["abc"]; [int("abc")] raises
    [ValueError], which nothing in [dispatch] catches. *)
Lemma C5_subject_counterexample :
  let req := Sample.get_dashboard [("Authorization", "Bearer " ++ Sample.named_token)] in
  exempt req = false
  /\ decode_access_token RefJose.lib Sample.key 0 Sample.named_token
     = Return (Some [("sub", PStr "abc"); ("exp", PInt 3600)])
  /\ dispatch RefJose.lib Sample.key 0 req = (req, Uncaught ValueError).
Proof. vm_compute. repeat split. Qed.

(* ===================================================================== *)
(** ** The credential verifier *)
(* ===================================================================== *)

Section Login.

Variable J : JoseLib.
Variable SECRET_KEY : string.
Variable sql_str_eq : string -> string -> bool.
Variable verify_password : string -> string -> bool.

(** Runs [login] along the facts introduced from the goal. *)
Ltac run_login :=
  unfold login;
  repeat (let H := fresh in intros H; rewrite H; cbn [bind negb]);
  reflexivity.

Lemma login_no_match (utcnow : Z) (db : database) (email password role : string) :
  get_user_for_login sql_str_eq db email role = Return None ->
  login J SECRET_KEY sql_str_eq verify_password utcnow db email password role
  = Raise (HTTPException 401 "Invalid credentials for selected role").
Proof. run_login. Qed.

Lemma login_inactive (utcnow : Z) (db : database) (email password role : string)
      (user : User) (r : Role) :
  get_user_for_login sql_str_eq db email role = Return (Some (user, r)) ->
  user_is_active user = false ->
  login J SECRET_KEY sql_str_eq verify_password utcnow db email password role
  = Raise (HTTPException 403 "User account is inactive").
Proof. run_login. Qed.

Lemma login_unverified (utcnow : Z) (db : database) (email password role : string)
      (user : User) (r : Role) :
  get_user_for_login sql_str_eq db email role = Return (Some (user, r)) ->
  user_is_active user = true ->
  user_is_verified user = false ->
  login J SECRET_KEY sql_str_eq verify_password utcnow db email password role
  = Raise (HTTPException 403 "User account is not verified").
Proof. run_login. Qed.

Lemma login_bad_password (utcnow : Z) (db : database) (email password role : string)
      (user : User) (r : Role) :
  get_user_for_login sql_str_eq db email role = Return (Some (user, r)) ->
  user_is_active user = true ->
  user_is_verified user = true ->
  verify_password password (user_password_hash user) = false ->
  login J SECRET_KEY sql_str_eq verify_password utcnow db email password role
  = Raise (HTTPException 401 "Invalid credentials").
Proof. run_login. Qed.


End Login.

(** C6, as the code has it.  A login that finds no account for the
    identifier and role, or whose password does not match, raises
    [HTTPException] with status 401; one that finds an inactive or an
    unverified account raises it with status 403.  The registered handler
    turns each into the JSON body [{"success": false, "message": reason}]
    with the exception's status. *)
Theorem C6_login_failures (J : JoseLib) (SECRET_KEY : string)
        (sql_str_eq verify_password : string -> string -> bool)
        (utcnow : Z) (db : database) (email password role : string) :
  let result := login J SECRET_KEY sql_str_eq verify_password utcnow db email password role in
  (get_user_for_login sql_str_eq db email role = Return None ->
   result = Raise (HTTPException 401 "Invalid credentials for selected role"))
  /\ (forall user r,
         get_user_for_login sql_str_eq db email role = Return (Some (user, r)) ->
         (user_is_active user = false ->
          result = Raise (HTTPException 403 "User account is inactive"))
         /\ (user_is_active user = true -> user_is_verified user = false ->
             result = Raise (HTTPException 403 "User account is not verified"))
         /\ (user_is_active user = true -> user_is_verified user = true ->
             verify_password password (user_password_hash user) = false ->
             result = Raise (HTTPException 401 "Invalid credentials")))
  /\ (forall status reason,
         result = Raise (HTTPException status reason) ->
         login_route result
         = {| status_code := status;
              content := [("success", PBool false); ("message", PStr reason)] |}).
Proof.
  intros result. split; [|split].
  - apply login_no_match.
  - intros user r Hrow. split; [|split]; intros.
    + now apply (login_inactive _ _ _ _ _ _ _ _ _ user r).
    + now apply (login_unverified _ _ _ _ _ _ _ _ _ user r).
    + now apply (login_bad_password _ _ _ _ _ _ _ _ _ user r).
  - intros status reason ->. reflexivity.
Qed.

(** The case that separates the claim as worded from the code: the login of
    an inactive account is answered with status 403, and the body has the
    keys [success] and [message], not [detail]. *)
Lemma C6_inactive_counterexample :
  let result := Sample.login_at 0 "dana@college.edu" "pw8" "STUDENT" in
  result = Raise (HTTPException 403 "User account is inactive")
  /\ login_route result
     = {| status_code := 403;
          content := [("success", PBool false);
                      ("message", PStr "User account is inactive")] |}
  /\ login_route result <> detail_response 401 "User account is inactive".
Proof. vm_compute. repeat split. discriminate. Qed.

(** C7, as the code has it.  A login that finds no account and a login
    whose password does not match are both refused with status 401, the
    first with "Invalid credentials for selected role", the second with
    "Invalid credentials": the responses differ. *)
Theorem C7_login_messages (J : JoseLib) (SECRET_KEY : string)
        (sql_str_eq verify_password : string -> string -> bool)
        (utcnow : Z) (db : database)
        (email1 password1 role1 email2 password2 role2 : string)
        (user : User) (r : Role) :
  let login' := login J SECRET_KEY sql_str_eq verify_password utcnow db in
  get_user_for_login sql_str_eq db email1 role1 = Return None ->
  get_user_for_login sql_str_eq db email2 role2 = Return (Some (user, r)) ->
  user_is_active user = true ->
  user_is_verified user = true ->
  verify_password password2 (user_password_hash user) = false ->
  login' email1 password1 role1
  = Raise (HTTPException 401 "Invalid credentials for selected role")
  /\ login' email2 password2 role2 = Raise (HTTPException 401 "Invalid credentials")
  /\ status_code (login_route (login' email1 password1 role1))
     = status_code (login_route (login' email2 password2 role2))
  /\ login_route (login' email1 password1 role1)
     <> login_route (login' email2 password2 role2).
Proof.
  intros login' H1 H2 Hact Hver Hpw.
  assert (E1 := login_no_match J SECRET_KEY sql_str_eq verify_password
                  utcnow db email1 password1 role1 H1).
  assert (E2 := login_bad_password J SECRET_KEY sql_str_eq verify_password
                  utcnow db email2 password2 role2 user r H2 Hact Hver Hpw).
  unfold login'. rewrite E1, E2. repeat split; discriminate.
Qed.

Lemma C7_login_messages_witness :
  Sample.login_at 0 "sam@college.edu" "pw7" "TEACHER"
  = Raise (HTTPException 401 "Invalid credentials for selected role")
  /\ Sample.login_at 0 "sam@college.edu" "guess" "STUDENT"
     = Raise (HTTPException 401 "Invalid credentials").
Proof.
  pose proof (C7_login_messages RefJose.lib Sample.key String.eqb Sample.verify 0
                Sample.db "sam@college.edu" "pw7" "TEACHER"
                "sam@college.edu" "guess" "STUDENT" Sample.sam
                {| role_id := 4; role_name := "STUDENT" |}
                eq_refl eq_refl eq_refl eq_refl eq_refl) as (H1 & H2 & _).
  split; [exact H1 | exact H2].
Defined.

(** The two refusals side by side: the messages are not the same. *)
Lemma C7_messages_counterexample :
  exists detail1 detail2,
    Sample.login_at 0 "sam@college.edu" "pw7" "TEACHER"
    = Raise (HTTPException 401 detail1)
    /\ Sample.login_at 0 "sam@college.edu" "guess" "STUDENT"
       = Raise (HTTPException 401 detail2)
    /\ detail1 <> detail2.
Proof.
  exists "Invalid credentials for selected role", "Invalid credentials".
  repeat split. discriminate.
Qed.

(* ===================================================================== *)
(** ** The token codec *)
(* ===================================================================== *)



Section Codec.

Variable J : JoseLib.
Variable SECRET_KEY : string.
Hypothesis contract : JoseContract J.




End Codec.

Lemma contract_checks_expiry (J : JoseLib) : JoseContract J -> DecodeChecksExpiry J.
Proof. intros contract tok k algs utcnow c. apply (decode_claims J contract). Qed.

(** [decode_access_token], by what [jwt.decode] does: no law of the library
    is needed. *)
Lemma decode_access_token_cases (J : JoseLib) (SECRET_KEY : string) (utcnow : Z)
      (token : string) :
  match jwt_decode J token SECRET_KEY [ALGORITHM] utcnow with
  | Return claims =>
      decode_access_token J SECRET_KEY utcnow token = Return (Some claims)
  | Raise e =>
      decode_access_token J SECRET_KEY utcnow token
      = if is_JWTError e then Return None else Raise e
  end.
Proof.
  unfold decode_access_token.
  now destruct (jwt_decode J token SECRET_KEY [ALGORITHM] utcnow).
Qed.

(** A token whose [exp] lies before the clock, both in whole seconds, is not
    accepted: [jwt.decode] fails on it. *)
Lemma expired_token_fails (J : JoseLib) (SECRET_KEY : string)
      (utcnow : Z) (token : string) (claims : pydict) (exp_claim : pyvalue) (exp : Z) :
  DecodeChecksExpiry J ->
  jwt_get_unverified_claims J token = Return claims ->
  dict_lookup "exp" claims = Some exp_claim ->
  py_int exp_claim = Return exp ->
  exp < timegm utcnow ->
  exists e, jwt_decode J token SECRET_KEY [ALGORITHM] utcnow = Raise e.
Proof.
  intros Hlaw Hclaims Hexp Hint Hlt.
  destruct (jwt_decode J token SECRET_KEY [ALGORITHM] utcnow) as [c|e] eqn:Hd;
    [|now exists e].
  destruct (Hlaw _ _ _ _ _ Hd) as [Hc Hvalid].
  rewrite Hclaims in Hc. injection Hc as <-.
  unfold exp_valid in Hvalid. rewrite Hexp, Hint in Hvalid.
  apply Z.leb_le in Hvalid. lia.
Qed.



(** C4, as the code has it.  [decode_access_token] returns the claims exactly
    when [jwt.decode] returns them; it returns [None] exactly when
    [jwt.decode] raises [JWTError] or one of its subclasses
    ([ExpiredSignatureError], [JWTClaimsError]), which is how bad signatures,
    malformed payloads and expiry are reported; and it catches nothing else:
    it raises [e] exactly when [jwt.decode] raises an [e] that is no
    [JWTError]. *)
Theorem C4_decode_outcomes (J : JoseLib) (SECRET_KEY : string)
        (utcnow : Z) (token : string) :
  (forall claims,
      decode_access_token J SECRET_KEY utcnow token = Return (Some claims)
      <-> jwt_decode J token SECRET_KEY [ALGORITHM] utcnow = Return claims)
  /\ (decode_access_token J SECRET_KEY utcnow token = Return None
      <-> exists e, jwt_decode J token SECRET_KEY [ALGORITHM] utcnow = Raise e
                    /\ is_JWTError e = true)
  /\ (forall e,
         decode_access_token J SECRET_KEY utcnow token = Raise e
         <-> jwt_decode J token SECRET_KEY [ALGORITHM] utcnow = Raise e
             /\ is_JWTError e = false).
Proof.
  pose proof (decode_access_token_cases J SECRET_KEY utcnow token) as H.
  destruct (jwt_decode J token SECRET_KEY [ALGORITHM] utcnow) as [c|e] eqn:Hd;
    rewrite H; clear H.
  - split; [|split].
    + intros claims. split; intros [= <-]; reflexivity.
    + split; [discriminate | intros (e & He & _); discriminate He].
    + intros e. split; [discriminate | intros [He _]; discriminate He].
  - split; [|split].
    + intros claims. split; [destruct (is_JWTError e)|]; discriminate.
    + split.
      * exists e. split; [reflexivity|]. destruct (is_JWTError e); [reflexivity | discriminate].
      * intros (e' & [= <-] & Hj). now rewrite Hj.
    + intros e'. split.
      * destruct (is_JWTError e) eqn:Hj; [discriminate|].
        intros [= <-]. now split.
      * intros [[= <-] Hj]. now rewrite Hj.
Qed.

Lemma C4_decode_outcomes_witness :
  decode_access_token RefJose.lib Sample.key 0 "not.a.token" = Return None
  /\ decode_access_token RefJose.lib "another-key" 0 Sample.sam_token = Return None
  /\ decode_access_token JoseSource.lib Sample.key (3601 * Sample.second)
                         Sample.sam_token = Return None.
Proof.
  split; [|split].
  - apply (proj1 (proj2 (C4_decode_outcomes RefJose.lib Sample.key 0 "not.a.token"))).
    eexists. split; vm_compute; reflexivity.
  - apply (proj1 (proj2 (C4_decode_outcomes RefJose.lib "another-key" 0
                           Sample.sam_token))).
    eexists. split; vm_compute; reflexivity.
  - apply (proj1 (proj2 (C4_decode_outcomes JoseSource.lib Sample.key
                           (3601 * Sample.second) Sample.sam_token))).
    eexists. split; vm_compute; reflexivity.
Defined.

(** C4, as the spec has it, fails.  A token that carries the claims
    [{"sub": "7", "exp": null}] under a right signature: [int(None)] in the
    library's expiry check is a [TypeError], which [jwt.decode] does not
    turn into a [JWTError] and [decode_access_token] does not catch. *)
Lemma C4_uncaught_counterexample :
  jwt_get_unverified_claims JoseSource.lib JoseSource.null_exp_token
  = Return [("sub", PStr "7"); ("exp", PNone)]
  /\ decode_access_token JoseSource.lib Sample.key 0 JoseSource.null_exp_token
     = Raise TypeError.
Proof. split; vm_compute; reflexivity. Qed.

(** C8, as the code has it.  The expiry check compares whole seconds: a
    token whose [exp] claim is below the clock's reading in whole seconds,
    that is from the second after the one of its expiry on, is never
    accepted, whatever its signature (nothing is assumed about it, nor about
    how [jwt.decode] fails): [jwt.decode] raises, and [decode_access_token]
    answers [None] when what was raised is a [JWTError] (as
    [ExpiredSignatureError] is) and lets anything else through. *)
Theorem C8_expired_token_not_accepted (J : JoseLib) (SECRET_KEY : string)
        (utcnow : Z) (token : string) (claims : pydict) (exp_claim : pyvalue) (exp : Z) :
  DecodeChecksExpiry J ->
  jwt_get_unverified_claims J token = Return claims ->
  dict_lookup "exp" claims = Some exp_claim ->
  py_int exp_claim = Return exp ->
  exp < timegm utcnow ->
  (forall payload,
      decode_access_token J SECRET_KEY utcnow token <> Return (Some payload))
  /\ exists e,
      jwt_decode J token SECRET_KEY [ALGORITHM] utcnow = Raise e
      /\ decode_access_token J SECRET_KEY utcnow token
         = if is_JWTError e then Return None else Raise e.
Proof.
  intros Hlaw Hclaims Hexp Hint Hlt.
  destruct (expired_token_fails J SECRET_KEY utcnow token claims exp_claim exp
              Hlaw Hclaims Hexp Hint Hlt) as [e He].
  pose proof (decode_access_token_cases J SECRET_KEY utcnow token) as H.
  rewrite He in H. split.
  - intros payload. rewrite H. destruct (is_JWTError e); discriminate.
  - now exists e.
Qed.

(** The token of [sam], which expires at [3600] seconds, one second later:
    refused with [None] under the right key and under another one, by both
    libraries; and a token that expired at the same time and whose [iat] is
    [null] leaves [decode_access_token] with the [TypeError] of the library's
    [int(None)]. *)
Lemma C8_expired_token_not_accepted_witness :
  (exists e,
      jwt_decode RefJose.lib Sample.sam_token Sample.key [ALGORITHM]
                 (3601 * Sample.second) = Raise e
      /\ decode_access_token RefJose.lib Sample.key (3601 * Sample.second)
                             Sample.sam_token
         = if is_JWTError e then Return None else Raise e)
  /\ (exists e,
      jwt_decode JoseSource.lib JoseSource.null_iat_token Sample.key [ALGORITHM]
                 (3601 * Sample.second) = Raise e
      /\ decode_access_token JoseSource.lib Sample.key (3601 * Sample.second)
                             JoseSource.null_iat_token
         = if is_JWTError e then Return None else Raise e).
Proof.
  split.
  - refine (proj2 (C8_expired_token_not_accepted RefJose.lib Sample.key
                     (3601 * Sample.second) Sample.sam_token
                     Sample.sam_claims (PInt 3600) 3600
                     (contract_checks_expiry _ RefJoseFacts.contract) _ eq_refl eq_refl _));
      vm_compute; reflexivity.
  - refine (proj2 (C8_expired_token_not_accepted JoseSource.lib Sample.key
                     (3601 * Sample.second) JoseSource.null_iat_token
                     [("sub", PStr "7"); ("iat", PNone); ("exp", PInt 3600)]
                     (PInt 3600) 3600
                     JoseSourceFacts.decode_checks_expiry _ eq_refl eq_refl _));
      vm_compute; reflexivity.
Defined.

(** C8, as the spec has it, fails.  The token of [sam] expires at [3600]
    seconds; validated [999999] microseconds after that instant, it is still
    accepted, by the reference library and by the one with the source's time
    checks: the clock is read in whole seconds and the check is
    [exp < now]. *)
Lemma C8_same_second_counterexample :
  jwt_get_unverified_claims RefJose.lib Sample.sam_token = Return Sample.sam_claims
  /\ 3600 * Sample.second < 3600 * Sample.second + 999999
  /\ decode_access_token RefJose.lib Sample.key (3600 * Sample.second + 999999)
                         Sample.sam_token
     = Return (Some Sample.sam_claims)
  /\ decode_access_token JoseSource.lib Sample.key (3600 * Sample.second + 999999)
                         Sample.sam_token
     = Return (Some Sample.sam_claims).
Proof. repeat split; vm_compute; reflexivity. Qed.

(* ===================================================================== *)
(** ** [get_current_user] on the tokens of [login] *)
(* ===================================================================== *)




Section CurrentUser.

Variable J : JoseLib.
Variable SECRET_KEY : string.
Variable sql_id_eq : Z -> pyvalue -> bool.
Hypothesis contract : JoseContract J.


End CurrentUser.




(* ===================================================================== *)
(** ** The statements above on the sample deployment *)
(* ===================================================================== *)

Lemma C1_authorization_gate_witness :
  let student :=
    [("id", PInt 7); ("role", PStr "STUDENT");
     ("permissions", PList [PStr "view:student_dashboard"])] in
  Decorators.permission_checker "view" "student_dashboard"
    (set_state_user (Sample.get_dashboard []) student) = Return true
  /\ Decorators.permission_checker "edit" "courses"
       (set_state_user (Sample.get_dashboard []) student)
     = Raise (HTTPException 403 "You do not have permission to perform this action").
Proof.
  intros student. split.
  - refine (proj1 (proj2 (proj2 (C1_authorization_gate "view" "student_dashboard"
                                   (set_state_user (Sample.get_dashboard []) student))
                            _)
                     [PStr "view:student_dashboard"] _ eq_refl) _).
    + discriminate.
    + discriminate.
    + left. reflexivity.
  - refine (proj2 (proj2 (proj2 (C1_authorization_gate "edit" "courses"
                                   (set_state_user (Sample.get_dashboard []) student))
                            _)
                     [PStr "view:student_dashboard"] _ eq_refl) _).
    + discriminate.
    + discriminate.
    + intros [H|[]]. discriminate H.
Defined.

Lemma C6_login_failures_witness :
  Sample.login_at 0 "dana@college.edu" "pw8" "STUDENT"
  = Raise (HTTPException 403 "User account is inactive")
  /\ Sample.login_at 0 "noor@college.edu" "pw9" "TEACHER"
     = Raise (HTTPException 403 "User account is not verified").
Proof.
  split.
  - exact (proj1 (proj1 (proj2 (C6_login_failures RefJose.lib Sample.key String.eqb
                                  Sample.verify 0 Sample.db
                                  "dana@college.edu" "pw8" "STUDENT"))
                    Sample.dana {| role_id := 4; role_name := "STUDENT" |} eq_refl)
             eq_refl).
  - exact (proj1 (proj2 (proj1 (proj2 (C6_login_failures RefJose.lib Sample.key String.eqb
                                  Sample.verify 0 Sample.db
                                  "noor@college.edu" "pw9" "TEACHER"))
                    Sample.noor {| role_id := 3; role_name := "TEACHER" |} eq_refl))
             eq_refl eq_refl).
Defined.

Lemma C10_codec_rejections_at_the_gate_witness :
  let req := Sample.get_dashboard [("Authorization", "Bearer " ++ Sample.sam_token)] in
  dispatch RefJose.lib Sample.key (3601 * Sample.second) req
  = (req, Response (detail_response 401 "Invalid token payload")).
Proof.
  intros req.
  refine (proj2 (proj2 (C10_codec_rejections_at_the_gate RefJose.lib Sample.key
                          (3601 * Sample.second)))
            req Sample.sam_token eq_refl eq_refl _ _);
    vm_compute; [discriminate | reflexivity].
Defined.

(* ===================================================================== *)
(** ** [str(n)] and [int(s)] *)
(* ===================================================================== *)




(** What [int()] skips, [str.strip()] drops as well. *)
Lemma int_isspace_isspace (c : ascii) : int_isspace c = true -> isspace c = true.
Proof.
  destruct c as [[] [] [] [] [] [] [] []]; intros H; try discriminate H; reflexivity.
Qed.

Lemma no_space_int (c : ascii) : no_space c = true -> int_isspace c = false.
Proof.
  unfold no_space. intros H. apply negb_true_iff in H.
  destruct (int_isspace c) eqn:Hc; [|reflexivity].
  apply int_isspace_isspace in Hc. congruence.
Qed.

Lemma int_rstrip_no_space (s : string) :
  all_chars no_space s = true -> int_rstrip s = s.
Proof.
  induction s as [|c s IH]; [reflexivity|].
  cbn [all_chars int_rstrip]. intros H. apply andb_prop in H as [Hc Hs].
  rewrite (IH Hs). apply no_space_int in Hc.
  destruct s; [now rewrite Hc | reflexivity].
Qed.

Lemma int_lstrip_no_space (s : string) :
  all_chars no_space s = true -> int_lstrip s = s.
Proof.
  destruct s as [|c s]; [reflexivity|].
  cbn [all_chars int_lstrip]. intros H. apply andb_prop in H as [Hc _].
  apply no_space_int in Hc. now rewrite Hc.
Qed.

Lemma int_strip_no_space (s : string) :
  all_chars no_space s = true -> int_strip s = s.
Proof.
  intros H. unfold int_strip. rewrite (int_lstrip_no_space s H).
  now apply int_rstrip_no_space.
Qed.

(** [int()] skips its own white space and nothing else: a file separator
    (code point 28) before or after the digits is a [ValueError], a
    next-line character (133) or a no-break space (160) is skipped. *)
Lemma int_of_str_white_space :
  int_of_str (String (ascii_of_nat 28) "7") = Raise ValueError
  /\ int_of_str ("7" ++ String (ascii_of_nat 31) "") = Raise ValueError
  /\ strip (String (ascii_of_nat 28) "7") = "7"
  /\ int_of_str (String (ascii_of_nat 133) ("7" ++ String (ascii_of_nat 160) ""))
     = Return 7
  /\ int_of_str (String (ascii_of_nat 9) (" -1_0" ++ String (ascii_of_nat 10) ""))
     = Return (-10).
Proof. repeat split; vm_compute; reflexivity. Qed.

Lemma all_chars_impl (f g : ascii -> bool) (s : string) :
  (forall c, f c = true -> g c = true) ->
  all_chars f s = true -> all_chars g s = true.
Proof.
  intros Hfg. induction s as [|c s IH]; [reflexivity|].
  cbn [all_chars]. intros H. apply andb_prop in H as [Hc Hs].
  now rewrite (Hfg c Hc), (IH Hs).
Qed.


Lemma is_digit_no_space (c : ascii) : is_digit c = true -> no_space c = true.
Proof. destruct c as [[] [] [] [] [] [] [] []]; vm_compute; congruence. Qed.


(** The digits that [str] prints. *)
Lemma digits_of_uint (d : Decimal.uint) :
  all_chars is_digit (NilEmpty.string_of_uint d) = true.
Proof. induction d; cbn [NilEmpty.string_of_uint all_chars]; try rewrite IHd; reflexivity. Qed.

Lemma int_digits_of_uint (d : Decimal.uint) (acc : Z) :
  int_digits (NilEmpty.string_of_uint d) acc true = Some (horner d acc).
Proof.
  revert acc. induction d; intros acc; cbn [NilEmpty.string_of_uint horner];
    [reflexivity | ..];
    cbn [int_digits]; 
    match goal with
    | |- context [is_digit ?c] =>
        change (is_digit c) with true;
        let v := eval vm_compute in (digit_value c) in
        change (digit_value c) with v
    end; cbv iota; rewrite IHd; do 2 f_equal; lia.
Qed.

Lemma int_digits_first (d : Decimal.uint) :
  d <> Decimal.Nil ->
  int_digits (NilEmpty.string_of_uint d) 0 false = Some (horner d 0).
Proof.
  destruct d; [congruence | ..]; intros _;
    cbn [NilEmpty.string_of_uint horner int_digits];
    match goal with
    | |- context [is_digit ?c] =>
        change (is_digit c) with true;
        let v := eval vm_compute in (digit_value c) in
        change (digit_value c) with v
    end; cbv iota; rewrite int_digits_of_uint; reflexivity.
Qed.

Lemma horner_of_uint_acc (d : Decimal.uint) (acc : positive) :
  Z.pos (Pos.of_uint_acc d acc) = horner d (Z.pos acc).
Proof.
  revert acc. induction d; intros acc; cbn [Pos.of_uint_acc horner];
    [reflexivity | ..]; rewrite IHd; f_equal; lia.
Qed.

Lemma horner_of_uint (d : Decimal.uint) : Z.of_N (Pos.of_uint d) = horner d 0.
Proof.
  induction d; cbn [Pos.of_uint horner]; [reflexivity | exact IHd | ..];
    cbn [Z.of_N]; rewrite horner_of_uint_acc; reflexivity.
Qed.

Lemma horner_to_uint (p : positive) : horner (Pos.to_uint p) 0 = Z.pos p.
Proof. rewrite <- horner_of_uint, DecimalPos.Unsigned.of_to. reflexivity. Qed.

Lemma count_digits_length (s : string) : count_digits s <= Z.of_nat (String.length s).
Proof.
  induction s as [|c s IH]; [reflexivity|].
  cbn [count_digits String.length]. destruct (is_digit c); lia.
Qed.

Lemma string_of_uint_head (d : Decimal.uint) :
  d <> Decimal.Nil ->
  exists c r, NilEmpty.string_of_uint d = String c r /\ is_digit c = true.
Proof. destruct d; [congruence | ..]; intros _; cbn; eauto. Qed.

(** [int] on a string that starts with a digit and has no white space at
    its ends: no sign to split off. *)
Lemma int_of_str_unsigned (c : ascii) (r : string) :
  is_digit c = true ->
  int_strip (String c r) = String c r ->
  int_of_str (String c r)
  = if int_max_str_digits <? count_digits (String c r) then Raise ValueError
    else match int_digits (String c r) 0 false with
         | Some n => Return n
         | None => Raise ValueError
         end.
Proof.
  intros Hc Hs. unfold int_of_str. rewrite Hs.
  destruct c as [[] [] [] [] [] [] [] []]; try discriminate Hc; reflexivity.
Qed.

Lemma str_of_pos (p : positive) :
  NilZero.string_of_uint (Pos.to_uint p) = NilEmpty.string_of_uint (Pos.to_uint p).
Proof.
  pose proof (DecimalPos.Unsigned.to_uint_nonnil p) as H.
  destruct (Pos.to_uint p); [congruence | reflexivity ..].
Qed.

Lemma int_of_str_pos (p : positive) :
  (String.length (NilEmpty.string_of_uint (Pos.to_uint p)) <= 4300)%nat ->
  int_of_str (NilEmpty.string_of_uint (Pos.to_uint p)) = Return (Z.pos p).
Proof.
  intros Hlen.
  pose proof (DecimalPos.Unsigned.to_uint_nonnil p) as Hnil.
  destruct (string_of_uint_head _ Hnil) as (c & r & Hs & Hc).
  pose proof (digits_of_uint (Pos.to_uint p)) as Hdigits.
  pose proof (int_digits_first _ Hnil) as Hval. rewrite horner_to_uint in Hval.
  pose proof (count_digits_length (NilEmpty.string_of_uint (Pos.to_uint p))) as Hcount.
  rewrite Hs in *.
  rewrite int_of_str_unsigned; [| exact Hc |].
  - rewrite Hval. unfold int_max_str_digits.
    destruct (Z.ltb_spec 4300 (count_digits (String c r))); [lia | reflexivity].
  - apply int_strip_no_space. revert Hdigits. apply all_chars_impl, is_digit_no_space.
Qed.

Lemma int_of_str_neg (p : positive) :
  (String.length (NilEmpty.string_of_uint (Pos.to_uint p)) <= 4300)%nat ->
  int_of_str (String "-" (NilEmpty.string_of_uint (Pos.to_uint p))) = Return (Z.neg p).
Proof.
  intros Hlen.
  pose proof (DecimalPos.Unsigned.to_uint_nonnil p) as Hnil.
  pose proof (digits_of_uint (Pos.to_uint p)) as Hdigits.
  pose proof (int_digits_first _ Hnil) as Hval. rewrite horner_to_uint in Hval.
  pose proof (count_digits_length (NilEmpty.string_of_uint (Pos.to_uint p))) as Hcount.
  unfold int_of_str.
  rewrite int_strip_no_space.
  - rewrite Hval. unfold int_max_str_digits.
    destruct (Z.ltb_spec 4300 (count_digits (NilEmpty.string_of_uint (Pos.to_uint p))));
      [lia | reflexivity].
  - cbn [all_chars]. change (no_space "-") with true. cbn [andb].
    revert Hdigits. apply all_chars_impl, is_digit_no_space.
Qed.

Lemma py_int_str_int (n : Z) :
  (String.length (py_str_int n) <= 4300)%nat ->
  truthy (PStr (py_str_int n)) = true
  /\ py_int (PStr (py_str_int n)) = Return n.
Proof.
  unfold py_str_int. destruct n as [|p|p]; cbn [Z.to_int NilZero.string_of_int].
  - intros _. split; reflexivity.
  - rewrite str_of_pos. intros Hlen. split.
    + destruct (string_of_uint_head _ (DecimalPos.Unsigned.to_uint_nonnil p))
        as (c & r & -> & _). reflexivity.
    + now apply int_of_str_pos.
  - rewrite str_of_pos. intros Hlen. split; [reflexivity|].
    apply int_of_str_neg. cbn [String.length] in Hlen. lia.
Qed.

(** X1.  [int(str(n)) = n]: the subject that [login] writes with [str] is
    read back by the gate's [int] as the same number, and is a true value,
    for every integer of at most 4300 decimal digits (the limit of [int] on
    a literal). *)
Theorem X1_int_of_str (n : Z) :
  (String.length (py_str_int n) <= 4300)%nat ->
  truthy (PStr (py_str_int n)) = true
  /\ py_int (PStr (py_str_int n)) = Return n.
Proof. apply py_int_str_int. Qed.

Lemma X1_int_of_str_witness :
  py_int (PStr (py_str_int 9007199254740993)) = Return 9007199254740993
  /\ py_int (PStr (py_str_int (-42))) = Return (-42).
Proof.
  split.
  - exact (proj2 (X1_int_of_str 9007199254740993 ltac:(vm_compute; lia))).
  - exact (proj2 (X1_int_of_str (-42) ltac:(vm_compute; lia))).
Defined.

(* ===================================================================== *)
(** ** From [login] to the Identity Context *)
(* ===================================================================== *)


Section LoginThenGate.

Variable J : JoseLib.
Variable SECRET_KEY : string.
Variable sql_str_eq : string -> string -> bool.
Variable verify_password : string -> string -> bool.
Hypothesis contract : JoseContract J.


End LoginThenGate.



(* ===================================================================== *)
(** ** The authentication gate as a whole *)
(* ===================================================================== *)

Lemma public_prefix_exempt (req : request) (prefix suffix : string) :
  In prefix PUBLIC_PATHS -> path req = prefix ++ suffix -> exempt req = true.
Proof.
  intros Hin Hpath. unfold exempt. apply orb_true_iff. right.
  apply existsb_exists. exists prefix. split; [assumption|].
  rewrite Hpath. apply prefix_of_append.
Qed.

(** X3.  The gate checks nothing on a CORS preflight or on a path that
    starts with a public prefix: the request is handed on unchanged, whatever
    its headers.  The prefix need not end at a path segment. *)
Theorem X3_exempt_requests (J : JoseLib) (SECRET_KEY : string) (utcnow : Z)
        (req : request) :
  method req = "OPTIONS"
  \/ (exists prefix suffix, In prefix PUBLIC_PATHS /\ path req = prefix ++ suffix) ->
  dispatch J SECRET_KEY utcnow req = (req, CallNext).
Proof.
  intros H. apply dispatch_exempt. destruct H as [H | (prefix & suffix & Hin & Hpath)].
  - unfold exempt. now rewrite H.
  - now apply (public_prefix_exempt req prefix suffix).
Qed.

Lemma X3_exempt_requests_witness :
  dispatch RefJose.lib Sample.key 0 (SampleMore.get "/health" [])
  = (SampleMore.get "/health" [], CallNext)
  /\ dispatch RefJose.lib Sample.key 0 (SampleMore.get "/api/authors/7" [])
     = (SampleMore.get "/api/authors/7" [], CallNext).
Proof.
  split; apply X3_exempt_requests; right.
  - exists "/health", "". split; [cbn; tauto | reflexivity].
  - exists "/api/auth", "ors/7". split; [cbn; tauto | reflexivity].
Defined.

Lemma py_int_raises (v : pyvalue) (e : exn) :
  py_int v = Raise e -> is_JWTError e = false.
Proof.
  destruct v as [|b|z|f|s|l|d|us]; cbn [py_int]; try (intros [= <-]; reflexivity);
    try discriminate.
  - destruct f as [m x|b|]; cbn; try discriminate; intros [= <-]; reflexivity.
  - unfold int_of_str.
    destruct (match int_strip s with
              | String "-"%char r => (true, r)
              | String "+"%char r => (false, r)
              | _ => (false, int_strip s)
              end) as [negative body].
    destruct (int_max_str_digits <? count_digits body); [intros [= <-]; reflexivity|].
    destruct (int_digits body 0 false); [discriminate | intros [= <-]; reflexivity].
Qed.

Lemma list_item_raises (l : list string) (i : nat) (e : exn) :
  list_item l i = Raise e -> is_JWTError e = false.
Proof.
  unfold list_item. destruct (nth_error l i); [discriminate | intros [= <-]; reflexivity].
Qed.

(** X4.  What the gate can do with a request.  A response of its own is a
    401 with a body [{"detail": reason}], on a request that is not exempt and
    is left as it was; an exception that escapes is no [JWTError]; a request
    that is handed on is either exempt and unchanged, or carries a new
    context with the keys [id], [role], [permissions], whose [id] is an
    integer. *)
Theorem X4_gate_outcomes (J : JoseLib) (SECRET_KEY : string) (utcnow : Z)
        (req : request) :
  match dispatch J SECRET_KEY utcnow req with
  | (req', Response r) =>
      req' = req /\ exempt req = false /\ status_code r = 401
      /\ exists reason, content r = [("detail", PStr reason)]
  | (req', Uncaught e) => req' = req /\ exempt req = false /\ is_JWTError e = false
  | (req', CallNext) =>
      (exempt req = true /\ req' = req)
      \/ (exempt req = false
          /\ exists n role permissions,
              req' = set_state_user req
                       [("id", PInt n); ("role", role); ("permissions", permissions)])
  end.
Proof.
  unfold dispatch, exempt.
  destruct (String.eqb (method req) "OPTIONS"); [left; auto|].
  destruct (existsb _ PUBLIC_PATHS); [left; auto|]. cbn [orb].
  repeat match goal with
    | |- context [match decode_access_token ?a ?b ?c ?d with _ => _ end] =>
        let He := fresh "He" in
        destruct (decode_access_token a b c d) as [?|e] eqn:He;
        [| rewrite (decode_access_token_no_JWTError _ _ _ _ _ He)]
    | |- context [match list_item ?l ?i with _ => _ end] =>
        destruct (list_item l i) eqn:?
    | |- context [match py_int ?v with _ => _ end] => destruct (py_int v) eqn:?
    | |- context [if ?b then _ else _] => destruct b
    end;
    try (right; split; [reflexivity | do 3 eexists; reflexivity]);
    repeat split; try reflexivity; try (eexists; reflexivity);
    try discriminate;
    try (eapply decode_access_token_no_JWTError; eassumption);
    try (eapply py_int_raises; eassumption);
    try (eapply list_item_raises; eassumption).
Qed.

(** X5.  A token that validates without a usable subject: an empty payload
    is answered 401 "Invalid token payload"; a payload whose [sub] is absent
    or a false value ([None], [""], [0]) is answered 401 "User identity
    missing in token".  No context is attached. *)
Theorem X5_missing_subject (J : JoseLib) (SECRET_KEY : string) (utcnow : Z)
        (req : request) (rest : string) (payload : pydict) :
  exempt req = false ->
  headers_get "Authorization" (headers req) = Some ("Bearer " ++ rest) ->
  strip rest <> "" ->
  decode_access_token J SECRET_KEY utcnow (strip rest) = Return (Some payload) ->
  truthy (dict_get "sub" payload) = false ->
  dispatch J SECRET_KEY utcnow req
  = (req, Response (detail_response 401
                      match payload with
                      | [] => "Invalid token payload"
                      | _ => "User identity missing in token"
                      end)).
Proof.
  intros Hex Hh Hne Hdec Hsub.
  rewrite (dispatch_bearer J SECRET_KEY utcnow req rest Hex Hh). cbv zeta.
  cbn [truthy]. apply String.eqb_neq in Hne. rewrite Hne, Hdec. cbn [negb].
  destruct payload as [|kv payload]; [reflexivity|].
  cbn [truthy_dict truthy negb]. now rewrite Hsub.
Qed.

Lemma X5_missing_subject_witness :
  let req := Sample.get_dashboard
               [("Authorization", "Bearer " ++ SampleMore.anonymous_token)] in
  dispatch RefJose.lib Sample.key 0 req
  = (req, Response (detail_response 401 "User identity missing in token")).
Proof.
  intros req.
  refine (X5_missing_subject RefJose.lib Sample.key 0 req SampleMore.anonymous_token
            [("role", PStr "ADMIN"); ("exp", PInt 3600)] eq_refl eq_refl _ _ eq_refl);
    vm_compute; [discriminate | reflexivity].
Defined.

(** X6.  The gate catches nothing but [JWTError]: when [jwt.decode] raises
    any other exception, [decode_access_token] lets it through and it leaves
    [dispatch] uncaught. *)
Theorem X6_other_exceptions_escape (J : JoseLib) (SECRET_KEY : string) (utcnow : Z)
        (req : request) (rest : string) (e : exn) :
  exempt req = false ->
  headers_get "Authorization" (headers req) = Some ("Bearer " ++ rest) ->
  strip rest <> "" ->
  jwt_decode J (strip rest) SECRET_KEY [ALGORITHM] utcnow = Raise e ->
  is_JWTError e = false ->
  decode_access_token J SECRET_KEY utcnow (strip rest) = Raise e
  /\ dispatch J SECRET_KEY utcnow req = (req, Uncaught e).
Proof.
  intros Hex Hh Hne Hdec He.
  assert (Hd : decode_access_token J SECRET_KEY utcnow (strip rest) = Raise e).
  { unfold decode_access_token. now rewrite Hdec, He. }
  split; [exact Hd|].
  rewrite (dispatch_bearer J SECRET_KEY utcnow req rest Hex Hh). cbv zeta.
  cbn [truthy]. apply String.eqb_neq in Hne. rewrite Hne, Hd, He. reflexivity.
Qed.

Lemma X6_other_exceptions_escape_witness :
  let req := Sample.get_dashboard [("Authorization", "Bearer abc.def.ghi")] in
  dispatch SampleMore.faulty_lib Sample.key 0 req = (req, Uncaught TypeError).
Proof.
  intros req.
  refine (proj2 (X6_other_exceptions_escape SampleMore.faulty_lib Sample.key 0 req
                   "abc.def.ghi" TypeError eq_refl eq_refl _ eq_refl eq_refl)).
  vm_compute. discriminate.
Defined.

(* ===================================================================== *)
(** ** The authorization gate on what the gate and [login] produce *)
(* ===================================================================== *)

(** X7.  The guard tests [required in permissions] on whatever the
    [permissions] of the context is.  For a role other than ["ADMIN"]: when
    it is a string, the test is a substring test; when it is a dict, a test
    on its keys; when it is [None], a boolean or a number, the test raises
    [TypeError]. *)
Theorem X7_permissions_of_other_types (action resource : string) (req : request)
        (user : pydict) :
  state_user req = Some user ->
  user <> [] ->
  dict_get "role" user <> PStr "ADMIN" ->
  let required := action ++ ":" ++ resource in
  let forbidden := Raise (HTTPException 403
                            "You do not have permission to perform this action") in
  match dict_get_default "permissions" (PList []) user with
  | PList _ => True
  | PStr text =>
      Decorators.permission_checker action resource req
      = if is_substring required text then Return true else forbidden
  | PDict d =>
      Decorators.permission_checker action resource req
      = if existsb (fun kv => String.eqb required (fst kv)) d then Return true
        else forbidden
  | PNone | PBool _ | PInt _ | PFloat _ | PDatetime _ =>
      Decorators.permission_checker action resource req = Raise TypeError
  end.
Proof.
  intros Hstate Hne Hrole required forbidden.
  unfold Decorators.permission_checker. rewrite Hstate.
  destruct user as [|kv user]; [congruence|]. cbn [truthy_dict truthy negb].
  destruct (py_eq_str "ADMIN" (dict_get "role" (kv :: user))) eqn:Hadmin;
    [apply py_eq_str_spec in Hadmin; congruence|].
  destruct (dict_get_default "permissions" (PList []) (kv :: user));
    cbn [py_contains_str bind]; try reflexivity; try exact I.
  - fold required. destruct (is_substring required s); reflexivity.
  - fold required. destruct (existsb _ d); reflexivity.
Qed.

Lemma X7_permissions_of_other_types_witness :
  let req := Sample.get_dashboard
               [("Authorization", "Bearer " ++ SampleMore.text_permissions_token)] in
  Decorators.permission_checker "view" "courses"
    (fst (dispatch RefJose.lib Sample.key 0 req)) = Return true.
Proof.
  intros req.
  exact (X7_permissions_of_other_types "view" "courses"
           (fst (dispatch RefJose.lib Sample.key 0 req))
           [("id", PInt 12); ("role", PStr "TEACHER");
            ("permissions", PStr "preview:courses")]
           ltac:(vm_compute; reflexivity) ltac:(discriminate) ltac:(discriminate)).
Defined.

Lemma existsb_py_eq_str_map (s : string) (l : list string) :
  existsb (py_eq_str s) (map PStr l) = existsb (String.eqb s) l.
Proof. induction l as [|x l IH]; [reflexivity|]. cbn. now rewrite IH. Qed.

Lemma guard_on_login_context (action resource : string) (req : request)
      (uid : Z) (role : string) :
  Decorators.permission_checker action resource
    (set_state_user req (login_context uid role))
  = if String.eqb "ADMIN" role
       || existsb (String.eqb (action ++ ":" ++ resource)) (role_permissions role)
    then Return true
    else Raise (HTTPException 403 "You do not have permission to perform this action").
Proof.
  unfold Decorators.permission_checker, login_context.
  cbn -[role_permissions String.eqb append].
  change (dict_get "role" _) with (PStr role).
  change (dict_get_default "permissions" _ _)
    with (PList (map PStr (role_permissions role))).
  cbn [py_eq_str py_contains_str bind].
  destruct (String.eqb "ADMIN" role); [reflexivity|]. cbn [orb].
  rewrite existsb_py_eq_str_map.
  destruct (existsb _ (role_permissions role)); reflexivity.
Qed.

(** X8.  The guard on the context of a logged-in user: it allows exactly
    when the role is ["ADMIN"] or the string [action:resource] is in the
    fixed permission list of the role, and raises 403 otherwise.  The id
    plays no part. *)
Theorem X8_guard_after_login (action resource : string) (req : request)
        (uid : Z) (role : string) :
  Decorators.permission_checker action resource
    (set_state_user req (login_context uid role))
  = if String.eqb "ADMIN" role
       || existsb (String.eqb (action ++ ":" ++ resource)) (role_permissions role)
    then Return true
    else Raise (HTTPException 403 "You do not have permission to perform this action").
Proof. apply guard_on_login_context. Qed.

(** X9.  Which of the guards bound by the routes a logged-in user passes,
    when the role is not ["ADMIN"]: a college admin passes [view:courses] and
    [view:college_dashboard], a teacher [view:courses], a student
    [view:student_dashboard]; nobody passes any other, so the guards of the
    student course routes ([view:student_courses], [update:student_courses])
    refuse students, and those on colleges, tests and the writing of courses
    refuse everyone but ["ADMIN"]. *)
Theorem X9_route_guards_by_role (action resource : string) (req : request)
        (uid : Z) (role : string) :
  In (action, resource) route_guards ->
  role <> "ADMIN" ->
  Decorators.permission_checker action resource
    (set_state_user req (login_context uid role)) = Return true
  <-> (role = "COLLEGE_ADMIN"
       /\ ((action, resource) = ("view", "courses")
           \/ (action, resource) = ("view", "college_dashboard")))
      \/ (role = "TEACHER" /\ (action, resource) = ("view", "courses"))
      \/ (role = "STUDENT" /\ (action, resource) = ("view", "student_dashboard")).
Proof.
  intros Hin Hrole. rewrite guard_on_login_context.
  assert (Hadmin : String.eqb "ADMIN" role = false)
    by (apply String.eqb_neq; congruence).
  rewrite Hadmin. cbn [orb]. unfold role_permissions.
  destruct (String.eqb_spec role "ADMIN") as [|_]; [congruence|].
  unfold route_guards in Hin. cbn [In] in Hin.
  destruct (String.eqb_spec role "COLLEGE_ADMIN") as [->|Hc];
    [|destruct (String.eqb_spec role "TEACHER") as [->|Ht];
      [|destruct (String.eqb_spec role "STUDENT") as [->|Hs]]];
    repeat (destruct Hin as [Hin|Hin]; [injection Hin as <- <-|]);
    try contradiction;
    cbn; (split; [intros H; try discriminate H | intros H]);
    try (left; split; [reflexivity | auto; fail]);
    try (right; left; split; reflexivity);
    try (right; right; split; reflexivity);
    try reflexivity;
    try (exfalso; intuition (try congruence; try discriminate)).
Qed.

Lemma X9_route_guards_by_role_witness :
  Decorators.permission_checker "view" "student_courses"
    (set_state_user (Sample.get_dashboard []) (login_context 7 "STUDENT"))
  <> Return true.
Proof.
  intros H.
  apply (X9_route_guards_by_role "view" "student_courses" (Sample.get_dashboard [])
           7 "STUDENT") in H.
  - destruct H as [[H _]|[[H _]|[_ H]]]; discriminate H.
  - cbn; tauto.
  - discriminate.
Defined.

(* ===================================================================== *)
(** ** The routes behind the two gates *)
(* ===================================================================== *)

Lemma guard_passed_has_user (action resource : string) (req : request) (b : bool) :
  Decorators.require_permission action resource req = Return b ->
  exists user, state_user req = Some user.
Proof.
  unfold Decorators.require_permission, Decorators.permission_checker.
  destruct (state_user req) as [user|]; [eauto | discriminate].
Qed.

(** A handler that reads [user.role.name] after its guard. *)
Lemma role_attribute_handler (service : pydict -> outcome pyvalue)
      (action resource : string) (req : request) :
  exists e,
    (_ <- Decorators.require_permission action resource req ;;
     user <- request_state_user req ;;
     role <- py_getattr (PDict user) "role" ;;
     name <- py_getattr role "name" ;;
     if negb (py_eq_str "STUDENT" name) then
       Raise (HTTPException HTTP_403_FORBIDDEN "Student access only")
     else service user) = Raise e
    /\ (forall b, Decorators.require_permission action resource req = Return b ->
                  e = OtherError "AttributeError").
Proof.
  destruct (Decorators.require_permission action resource req) as [b|e] eqn:Hguard.
  - exists (OtherError "AttributeError"). split; [|reflexivity].
    destruct (guard_passed_has_user _ _ _ _ Hguard) as [user Huser].
    unfold request_state_user. rewrite Huser. reflexivity.
  - exists e. split; [reflexivity | discriminate].
Qed.

(** X10.  The three student handlers never reach their service: each reads
    [user.role.name] on the context, which is a dict, so whenever its guard
    lets the request pass the handler raises [AttributeError]; otherwise it
    ends with the guard's exception. *)
Theorem X10_student_handlers_never_serve (service : pydict -> outcome pyvalue)
        (req : request) :
  (exists e, student_dashboard service req = Raise e
             /\ (forall b, Decorators.require_permission "view" "student_dashboard" req
                           = Return b -> e = OtherError "AttributeError"))
  /\ (exists e, list_my_courses service req = Raise e
                /\ (forall b, Decorators.require_permission "view" "student_courses" req
                              = Return b -> e = OtherError "AttributeError"))
  /\ (exists e, update_course_progress service req = Raise e
                /\ (forall b, Decorators.require_permission "update" "student_courses" req
                              = Return b -> e = OtherError "AttributeError")).
Proof. repeat split; apply role_attribute_handler. Qed.

(** X11.  A student who logged in: the dashboard handler raises
    [AttributeError] (answered 500 by the handler for unexpected exceptions),
    and the two course handlers are refused with 403 by their guards. *)
Theorem X11_student_after_login (service : pydict -> outcome pyvalue)
        (req : request) (uid : Z) :
  let req' := set_state_user req (login_context uid "STUDENT") in
  student_dashboard service req' = Raise (OtherError "AttributeError")
  /\ exception_response (OtherError "AttributeError") = global_exception_handler
  /\ list_my_courses service req'
     = Raise (HTTPException 403 "You do not have permission to perform this action")
  /\ update_course_progress service req'
     = Raise (HTTPException 403 "You do not have permission to perform this action").
Proof. repeat split. Qed.

Lemma admin_passes_every_guard (action resource : string) (req : request) (uid : Z) :
  Decorators.permission_checker action resource
    (set_state_user req (login_context uid "ADMIN")) = Return true.
Proof. now rewrite guard_on_login_context. Qed.

(** X12.  The bypass of the guard does not extend to the role checks of the
    college routes: with the context of a logged-in ["ADMIN"] every guard
    allows, yet the college student and course handlers, and the dashboard
    service behind the guarded college dashboard, raise 403 "College admin
    access only". *)
Theorem X12_admin_is_no_college_admin (service : pydict -> outcome pyvalue)
        (queries : pyvalue -> outcome pyvalue) (req : request) (uid : Z) :
  let req' := set_state_user req (login_context uid "ADMIN") in
  let refused := HTTPException 403 "College admin access only" in
  (forall action resource,
      Decorators.permission_checker action resource req' = Return true)
  /\ list_students service req' = Raise refused
  /\ assign_course service req' = Raise refused
  /\ college_dashboard (get_dashboard_data queries) req' = Raise refused.
Proof.
  intros req' refused. split; [|repeat split].
  intros action resource. apply admin_passes_every_guard.
Qed.

(** X13.  The college dashboard for a logged-in college admin: the service
    treats the id 0 as no id and raises 401 "Invalid authentication token";
    for any other id the queries run on the id, and the response carries it
    as [college_admin_id] next to their result. *)
Theorem X13_college_dashboard (queries : pyvalue -> outcome pyvalue)
        (req : request) (uid : Z) :
  college_dashboard (get_dashboard_data queries)
    (set_state_user req (login_context uid "COLLEGE_ADMIN"))
  = if uid =? 0 then Raise (HTTPException 401 "Invalid authentication token")
    else stats <- queries (PInt uid) ;;
         Return [("message", PStr "Welcome College Admin");
                 ("college_admin_id", PInt uid); ("stats", stats)].
Proof.
  unfold college_dashboard, Decorators.require_permission.
  rewrite guard_on_login_context. cbn [orb existsb String.eqb Ascii.eqb Bool.eqb].
  change (String.eqb "ADMIN" "COLLEGE_ADMIN") with false.
  change (existsb _ (role_permissions "COLLEGE_ADMIN")) with true.
  cbn [orb bind]. unfold get_dashboard_data, request_state_user.
  cbn [state_user set_state_user bind]. unfold login_context.
  change (dict_get "role" _) with (PStr "COLLEGE_ADMIN").
  change (dict_get "id" _) with (PInt uid).
  cbn [py_eq_str truthy]. change (String.eqb "COLLEGE_ADMIN" "COLLEGE_ADMIN") with true.
  cbn [negb]. destruct (uid =? 0); [reflexivity|]. cbn [negb].
  destruct (queries (PInt uid)); reflexivity.
Qed.

(** A route behind the gate on a protected path runs only on the context
    that the gate built from a validated token. *)
Lemma behind_gate_route (A : Type) (J : JoseLib) (SECRET_KEY : string) (utcnow : Z)
      (route : request -> outcome A) (req : request) (result : outcome A) :
  exempt req = false ->
  behind_gate J SECRET_KEY utcnow route req = ByRoute result ->
  exists rest payload n,
    headers_get "Authorization" (headers req) = Some ("Bearer " ++ rest)
    /\ decode_access_token J SECRET_KEY utcnow (strip rest) = Return (Some payload)
    /\ truthy (dict_get "sub" payload) = true
    /\ py_int (dict_get "sub" payload) = Return n
    /\ result = route (set_state_user req
                         [("id", PInt n);
                          ("role", dict_get_default "role" (PStr "USER") payload);
                          ("permissions",
                            dict_get_default "permissions" (PList []) payload)]).
Proof.
  intros Hex. unfold behind_gate.
  destruct (truthy_str (headers_get "Authorization" (headers req))) eqn:Hh.
  - destruct (headers_get "Authorization" (headers req)) as [h|] eqn:Hget;
      [|discriminate].
    destruct (startswith "Bearer " h) eqn:Hb.
    + apply prefix_append in Hb as [rest ->].
      rewrite (dispatch_bearer J SECRET_KEY utcnow req rest Hex Hget). cbv zeta.
      destruct (negb (truthy (PStr (strip rest)))); [discriminate|].
      destruct (decode_access_token J SECRET_KEY utcnow (strip rest))
        as [[payload|]|e] eqn:Hdec;
        [| discriminate | destruct (is_JWTError e); discriminate].
      destruct (negb (truthy_dict (Some payload))); [discriminate|].
      destruct (truthy (dict_get "sub" payload)) eqn:Hsub; [|discriminate].
      cbn [negb]. destruct (py_int (dict_get "sub" payload)) as [n|e] eqn:Hint;
        [|discriminate].
      intros [= <-]. exists rest, payload, n.
      repeat split; try assumption; reflexivity.
    + rewrite (dispatch_bad_format J SECRET_KEY utcnow req h Hex Hget); [discriminate| |exact Hb].
      intros ->. discriminate Hh.
  - rewrite (dispatch_missing J SECRET_KEY utcnow req Hex Hh). discriminate.
Qed.

(** X14.  The admin dashboard behind the gate, on its protected path: when
    the handler is reached at all, it either runs its service, and then the
    role claim of the validated token is ["ADMIN"], or raises 403 "Admins
    only"; it raises neither [KeyError] nor its own 401. *)
Theorem X14_admin_dashboard_behind_gate (J : JoseLib) (SECRET_KEY : string)
        (utcnow : Z) (get_admin_dashboard : outcome pyvalue)
        (req : request) (result : outcome pyvalue) :
  exempt req = false ->
  behind_gate J SECRET_KEY utcnow (admin_dashboard get_admin_dashboard) req
  = ByRoute result ->
  (result = get_admin_dashboard
   /\ exists rest payload,
       headers_get "Authorization" (headers req) = Some ("Bearer " ++ rest)
       /\ decode_access_token J SECRET_KEY utcnow (strip rest) = Return (Some payload)
       /\ dict_lookup "role" payload = Some (PStr "ADMIN"))
  \/ result = Raise (HTTPException 403 "Admins only").
Proof.
  intros Hex H.
  apply behind_gate_route in H as (rest & payload & n & Hh & Hdec & _ & _ & ->);
    [|exact Hex].
  unfold admin_dashboard. cbn [state_user set_state_user truthy_dict truthy negb].
  cbn [dict_item dict_lookup String.eqb Ascii.eqb Bool.eqb bind].
  destruct (py_eq_str "ADMIN" (dict_get_default "role" (PStr "USER") payload)) eqn:Hrole;
    cbn [negb]; [left | right; reflexivity].
  split; [reflexivity|]. exists rest, payload. repeat split; try assumption.
  apply py_eq_str_spec in Hrole. unfold dict_get_default in Hrole.
  destruct (dict_lookup "role" payload); [now subst | discriminate].
Qed.

Lemma X14_admin_dashboard_behind_gate_witness :
  behind_gate RefJose.lib Sample.key 0 (admin_dashboard (Return PNone))
    (SampleMore.get "/api/admin/admin/dashboard"
       [("Authorization", "Bearer " ++ Sample.sam_token)])
  = ByRoute (Raise (HTTPException 403 "Admins only")).
Proof.
  destruct (X14_admin_dashboard_behind_gate RefJose.lib Sample.key 0 (Return PNone)
              (SampleMore.get "/api/admin/admin/dashboard"
                 [("Authorization", "Bearer " ++ Sample.sam_token)])
              (Raise (HTTPException 403 "Admins only")) eq_refl
              ltac:(vm_compute; reflexivity)) as [[H _]|H].
  - discriminate H.
  - vm_compute. reflexivity.
Defined.



(* ===================================================================== *)
(** ** The credential verifier: when [login] succeeds *)
(* ===================================================================== *)

Lemma scalar_one_inv (A : Type) (rows : list A) (x : A) :
  scalar_one_or_none rows = Return (Some x) -> rows = [x].
Proof.
  destruct rows as [|y [|z rows]]; cbn; try discriminate. now intros [= ->].
Qed.

Lemma scalar_many (A : Type) (rows : list A) :
  (2 <= length rows)%nat -> scalar_one_or_none rows = Raise MultipleResultsFound.
Proof. destruct rows as [|y [|z rows]]; cbn; [lia | lia | reflexivity]. Qed.

Section LoginSuccess.

Variable J : JoseLib.
Variable SECRET_KEY : string.
Variable sql_str_eq : string -> string -> bool.
Variable verify_password : string -> string -> bool.

(** A row of the login query is a user of the table with the role it
    refers to, the role has the requested name and the identifier is the
    user's email or phone. *)
Lemma login_rows_sound (db : database) (identifier role : string) (user : User)
      (r : Role) :
  In (user, r) (login_rows sql_str_eq db identifier role) ->
  In user (db_users db) /\ In r (db_roles db)
  /\ user_role_id user = role_id r
  /\ sql_str_eq (role_name r) role = true
  /\ (sql_str_eq (user_email user) identifier = true
      \/ exists phone, user_phone user = Some phone
                       /\ sql_str_eq phone identifier = true).
Proof.
  unfold login_rows. intros H. apply in_flat_map in H as (u & Hu & H).
  apply in_map_iff in H as (r' & [= -> ->] & Hr).
  apply filter_In in Hr as [Hr Hcond].
  apply andb_prop in Hcond as [Hcond Hident].
  apply andb_prop in Hcond as [Hid Hname].
  repeat split; try assumption.
  - now apply Z.eqb_eq.
  - apply orb_prop in Hident as [He|Hp]; [left; exact He | right].
    unfold phone_matches in Hp. destruct (user_phone user) as [phone|];
      [eauto | discriminate].
Qed.

Lemma login_returns_checked (utcnow : Z) (db : database)
      (email password role : string) (body : pydict) :
  login J SECRET_KEY sql_str_eq verify_password utcnow db email password role
  = Return body ->
  exists user r token,
    get_user_for_login sql_str_eq db email role = Return (Some (user, r))
    /\ user_is_active user = true
    /\ user_is_verified user = true
    /\ verify_password password (user_password_hash user) = true
    /\ create_access_token J SECRET_KEY utcnow
         (login_claims (user_id user) (role_name r)) = Return token
    /\ body = [("access_token", PStr token); ("token_type", PStr "bearer");
               ("role", PStr (role_name r))].
Proof.
  unfold login.
  destruct (get_user_for_login sql_str_eq db email role) as [[[user r]|]|];
    cbn [bind]; try discriminate.
  destruct (user_is_active user) eqn:Ha; [|discriminate].
  destruct (user_is_verified user) eqn:Hv; [|discriminate].
  destruct (verify_password password (user_password_hash user)) eqn:Hp; [|discriminate].
  cbn [negb].
  destruct (create_access_token J SECRET_KEY utcnow _) as [token|] eqn:Htok;
    cbn [bind]; [|discriminate].
  intros [= <-]. exists user, r, token. repeat split; try reflexivity; assumption.
Qed.

Lemma login_ambiguous (utcnow : Z) (db : database) (email password role : string) :
  (2 <= length (login_rows sql_str_eq db email role))%nat ->
  login J SECRET_KEY sql_str_eq verify_password utcnow db email password role
  = Raise MultipleResultsFound.
Proof.
  intros H. unfold login, get_user_for_login. now rewrite scalar_many.
Qed.

End LoginSuccess.

(** X16.  [login] returns only for an account that passed every check: the
    one row of the query, a user of the table joined with its role, whose
    role has the requested name, whose email or phone is the identifier, who
    is active and verified and whose password verifies.  The body names the
    role as stored and the token type ["bearer"]. *)
Theorem X16_login_returns_only_when_checked (J : JoseLib) (SECRET_KEY : string)
        (sql_str_eq verify_password : string -> string -> bool)
        (utcnow : Z) (db : database) (email password role : string) (body : pydict) :
  login J SECRET_KEY sql_str_eq verify_password utcnow db email password role
  = Return body ->
  exists user r token,
    login_rows sql_str_eq db email role = [(user, r)]
    /\ In user (db_users db) /\ In r (db_roles db)
    /\ user_role_id user = role_id r
    /\ sql_str_eq (role_name r) role = true
    /\ (sql_str_eq (user_email user) email = true
        \/ exists phone, user_phone user = Some phone /\ sql_str_eq phone email = true)
    /\ user_is_active user = true
    /\ user_is_verified user = true
    /\ verify_password password (user_password_hash user) = true
    /\ body = [("access_token", PStr token); ("token_type", PStr "bearer");
               ("role", PStr (role_name r))].
Proof.
  intros H.
  apply login_returns_checked in H as (user & r & token & Hrow & Ha & Hv & Hp & _ & ->).
  apply scalar_one_inv in Hrow.
  assert (Hin : In (user, r) (login_rows sql_str_eq db email role))
    by (rewrite Hrow; now left).
  apply login_rows_sound in Hin as (H1 & H2 & H3 & H4 & H5).
  exists user, r, token. repeat split; try reflexivity; assumption.
Qed.

Lemma X16_login_returns_only_when_checked_witness :
  exists user r token,
    login_rows String.eqb Sample.db "sam@college.edu" "STUDENT" = [(user, r)]
    /\ user_is_active user = true
    /\ Sample.login_at 0 "sam@college.edu" "pw7" "STUDENT"
       = Return [("access_token", PStr token); ("token_type", PStr "bearer");
                 ("role", PStr (role_name r))].
Proof.
  destruct (X16_login_returns_only_when_checked RefJose.lib Sample.key String.eqb
              Sample.verify 0 Sample.db "sam@college.edu" "pw7" "STUDENT"
              [("access_token", PStr Sample.sam_token); ("token_type", PStr "bearer");
               ("role", PStr "STUDENT")] ltac:(vm_compute; reflexivity))
    as (user & r & token & Hrows & _ & _ & _ & _ & _ & Hact & _ & _ & Hbody).
  exists user, r, token. repeat split; try assumption.
  rewrite <- Hbody. vm_compute. reflexivity.
Defined.

(** X17.  An identifier that matches more than one row (two accounts of one
    role that share a phone number, say) makes [login] fail with
    [MultipleResultsFound], not with an [HTTPException]: the client gets the
    500 of the handler for unexpected exceptions, no 401. *)
Theorem X17_ambiguous_identifier (J : JoseLib) (SECRET_KEY : string)
        (sql_str_eq verify_password : string -> string -> bool)
        (utcnow : Z) (db : database) (email password role : string) :
  (2 <= length (login_rows sql_str_eq db email role))%nat ->
  login J SECRET_KEY sql_str_eq verify_password utcnow db email password role
  = Raise MultipleResultsFound
  /\ login_route
       (login J SECRET_KEY sql_str_eq verify_password utcnow db email password role)
     = {| status_code := 500;
          content := [("success", PBool false);
                      ("message", PStr "Internal server error")] |}.
Proof.
  intros H.
  rewrite (login_ambiguous J SECRET_KEY sql_str_eq verify_password utcnow db
             email password role H).
  split; reflexivity.
Qed.

Lemma X17_ambiguous_identifier_witness :
  login RefJose.lib Sample.key String.eqb Sample.verify 0 SampleMore.db
    "5550100" "pw21" "STUDENT"
  = Raise MultipleResultsFound.
Proof.
  exact (proj1 (X17_ambiguous_identifier RefJose.lib Sample.key String.eqb Sample.verify
                  0 SampleMore.db "5550100" "pw21" "STUDENT"
                  ltac:(vm_compute; lia))).
Defined.



(* ===================================================================== *)
(** ** The token codec on arbitrary claims *)
(* ===================================================================== *)








Section AnyClaims.

Variable J : JoseLib.
Variable SECRET_KEY : string.
Hypothesis contract : JoseContract J.


End AnyClaims.



(* ===================================================================== *)
(** ** [get_current_user] *)
(* ===================================================================== *)

(** X20.  What [get_current_user] returns: a user of the table who is
    active and whose id equals, for the database, the [user_id] claim of the
    payload that [decode_access_token] gave for the second piece of a
    [Bearer] header.  It returns in no other case. *)
Theorem X20_current_user_is_sound (J : JoseLib) (SECRET_KEY : string)
        (sql_id_eq : Z -> pyvalue -> bool) (utcnow : Z) (req : request)
        (db : database) (user : User) :
  get_current_user J SECRET_KEY sql_id_eq utcnow req db = Return user ->
  In user (db_users db)
  /\ user_is_active user = true
  /\ exists header token payload uid,
      headers_get "Authorization" (headers req) = Some header
      /\ startswith "Bearer " header = true
      /\ list_item (split_space header) 1 = Return token
      /\ decode_access_token J SECRET_KEY utcnow token = Return (Some payload)
      /\ dict_lookup "user_id" payload = Some uid
      /\ sql_id_eq (user_id user) uid = true.
Proof.
  unfold get_current_user.
  destruct (headers_get "Authorization" (headers req)) as [header|]; [|discriminate].
  cbn [truthy_str].
  destruct (truthy (PStr header)); [|discriminate]. cbn [negb orb].
  destruct (startswith "Bearer " header) eqn:Hb; [|discriminate]. cbn [negb].
  destruct (list_item (split_space header) 1) as [token|] eqn:Htoken; [|discriminate].
  cbn [bind].
  destruct (decode_access_token J SECRET_KEY utcnow token) as [[payload|]|] eqn:Hdec;
    cbn [bind]; try discriminate.
  destruct (negb (truthy_dict (Some payload))); [discriminate|].
  unfold dict_item.
  destruct (dict_lookup "user_id" payload) as [uid|] eqn:Huid; [|discriminate].
  cbn [bind]. unfold get_by_id.
  destruct (scalar_one_or_none _) as [[u|]|] eqn:Hrow; cbn [bind]; try discriminate.
  destruct (user_is_active u) eqn:Hact; [|discriminate]. cbn [negb].
  intros [= ->]. apply scalar_one_inv in Hrow.
  assert (Hin : In user (filter (fun u => sql_id_eq (user_id u) uid) (db_users db)))
    by (rewrite Hrow; now left).
  apply filter_In in Hin as [Hin Hid].
  split; [exact Hin|]. split; [exact Hact|].
  exists header, token, payload, uid. repeat split; assumption.
Qed.

Lemma X20_current_user_is_sound_witness :
  get_current_user RefJose.lib Sample.key Sample.id_eq 0
    (Sample.get_dashboard [("Authorization", "Bearer " ++ SampleMore.user_id_token)])
    Sample.db = Return Sample.sam
  /\ In Sample.sam (db_users Sample.db)
  /\ user_is_active Sample.sam = true.
Proof.
  assert (H : get_current_user RefJose.lib Sample.key Sample.id_eq 0
                (Sample.get_dashboard
                   [("Authorization", "Bearer " ++ SampleMore.user_id_token)])
                Sample.db = Return Sample.sam) by (vm_compute; reflexivity).
  destruct (X20_current_user_is_sound RefJose.lib Sample.key Sample.id_eq 0 _ _ _ H)
    as (Hin & Hact & _).
  repeat split; assumption.
Defined.

Lemma split_space_not_blank (s : string) :
  all_chars not_blank s = true -> split_space s = [s].
Proof.
  induction s as [|c s IH]; [reflexivity|].
  cbn [all_chars split_space]. intros H. apply andb_prop in H as [Hc Hs].
  unfold not_blank in Hc. apply negb_true_iff in Hc. now rewrite Hc, (IH Hs).
Qed.

Lemma split_space_second (token tail : string) :
  all_chars not_blank token = true ->
  list_item (split_space ("Bearer " ++ token ++ " " ++ tail)) 1 = Return token
  /\ list_item (split_space ("Bearer " ++ token)) 1 = Return token.
Proof.
  intros H. 
  assert (Hcut : exists pieces, split_space (token ++ " " ++ tail) = token :: pieces).
  { clear -H. induction token as [|c token IH].
    - cbn. eauto.
    - cbn [all_chars] in H. apply andb_prop in H as [Hc Hs].
      unfold not_blank in Hc. apply negb_true_iff in Hc.
      destruct (IH Hs) as [pieces Hp].
      cbn [append split_space]. rewrite Hc. cbn [append] in Hp. rewrite Hp. eauto. }
  destruct Hcut as [pieces Hcut]. split.
  - cbn -[split_space append]. cbn [append split_space Ascii.eqb Bool.eqb].
    cbn [append] in Hcut. rewrite Hcut. reflexivity.
  - cbn -[split_space append]. cbn [append split_space Ascii.eqb Bool.eqb].
    rewrite (split_space_not_blank token H). reflexivity.
Qed.

(** X21.  [get_current_user] takes as the token what stands between the
    first and the second space of the header and ignores the rest: a header
    [Bearer <token> <anything>] is treated exactly as [Bearer <token>]. *)
Theorem X21_current_user_ignores_tail (J : JoseLib) (SECRET_KEY : string)
        (sql_id_eq : Z -> pyvalue -> bool) (utcnow : Z) (req req' : request)
        (db : database) (token tail : string) :
  all_chars not_blank token = true ->
  headers_get "Authorization" (headers req) = Some ("Bearer " ++ token ++ " " ++ tail) ->
  headers_get "Authorization" (headers req') = Some ("Bearer " ++ token) ->
  get_current_user J SECRET_KEY sql_id_eq utcnow req db
  = get_current_user J SECRET_KEY sql_id_eq utcnow req' db.
Proof.
  intros Htoken Hh Hh'. unfold get_current_user. rewrite Hh, Hh'.
  destruct (split_space_second token tail Htoken) as [H1 H2].
  cbn [truthy_str truthy]. rewrite !startswith_bearer, H1, H2. reflexivity.
Qed.

Lemma X21_current_user_ignores_tail_witness :
  get_current_user RefJose.lib Sample.key Sample.id_eq 0
    (Sample.get_dashboard
       [("Authorization", "Bearer " ++ SampleMore.user_id_token ++ " and more")])
    Sample.db
  = Return Sample.sam.
Proof.
  rewrite (X21_current_user_ignores_tail RefJose.lib Sample.key Sample.id_eq 0
             (Sample.get_dashboard
                [("Authorization", "Bearer " ++ SampleMore.user_id_token ++ " and more")])
             (Sample.get_dashboard
                [("Authorization", "Bearer " ++ SampleMore.user_id_token)])
             Sample.db SampleMore.user_id_token "and more").
  - vm_compute. reflexivity.
  - vm_compute. reflexivity.
  - vm_compute. reflexivity.
  - vm_compute. reflexivity.
Defined.
